(** * Cyberbro analyzer ([ciis.py]): sentiment / toxicity thresholds,
      the per-post analysis loop and the CSV history store.

    The script is a Streamlit page.  Its own logic is embedded below as
    Rocq functions; the libraries it calls (TextBlob, the Hugging Face
    pipeline, pandas' CSV reader and writer) are parameters of the
    section [Script].  Python values are modelled as follows:

    - [str]   : the list of its Unicode code points ([pystr]);
    - [float] : an IEEE-754 binary64 datum, [spec_float] of the standard
                library, compared with [SFltb];
    - [dict]  : an insertion-ordered association list ([pydict]);
    - exceptions : the [Raise] case of [result];
    - the history file and everything the page renders or calls: the
      [world] threaded through the monad [M]. *)

From Stdlib Require Import ZArith NArith String Ascii Bool Lia List.
From Stdlib Require Import SpecFloat.
Import ListNotations.

(** ** Python strings *)

Module Str.

Definition pystr := list N.

Fixpoint utf8_decode (bs : list N) : pystr :=
  match bs with
  | [] => []
  | b0 :: r0 =>
    if (b0 <? 128)%N then b0 :: utf8_decode r0
    else match r0 with
    | [] => []
    | b1 :: r1 =>
      if (b0 <? 224)%N then ((b0 - 192) * 64 + (b1 - 128))%N :: utf8_decode r1
      else match r1 with
      | [] => []
      | b2 :: r2 =>
        if (b0 <? 240)%N
        then ((b0 - 224) * 4096 + (b1 - 128) * 64 + (b2 - 128))%N :: utf8_decode r2
        else match r2 with
        | [] => []
        | b3 :: r3 =>
          ((b0 - 240) * 262144 + (b1 - 128) * 4096 + (b2 - 128) * 64 + (b3 - 128))%N
            :: utf8_decode r3
        end
      end
    end
  end.

(** A source literal: the file is UTF-8, a Python [str] holds code points. *)
Definition lit (s : string) : pystr :=
  utf8_decode (map N_of_ascii (list_ascii_of_string s)).

Fixpoint eqb (a b : pystr) : bool :=
  match a, b with
  | [], [] => true
  | x :: a', y :: b' => (x =? y)%N && eqb a' b'
  | _, _ => false
  end.

(** [str.isspace] on one character, CPython's [_PyUnicode_IsWhitespace]. *)
Definition isspace (c : N) : bool :=
  ((9 <=? c) && (c <=? 13) || (28 <=? c) && (c <=? 32)
   || (c =? 133) || (c =? 160) || (c =? 5760)
   || (8192 <=? c) && (c <=? 8202)
   || (c =? 8232) || (c =? 8233) || (c =? 8239) || (c =? 8287) || (c =? 12288))%N.

Fixpoint lstrip (s : pystr) : pystr :=
  match s with
  | c :: r => if isspace c then lstrip r else s
  | [] => []
  end.

Definition rstrip (s : pystr) : pystr := rev (lstrip (rev s)).

(** [s.strip()] *)
Definition strip (s : pystr) : pystr := rstrip (lstrip s).

(** [s.split(sep)] for a one-character separator: never the empty list. *)
Fixpoint split (sep : N) (s : pystr) : list pystr :=
  match s with
  | [] => [[]]
  | c :: r =>
    if (c =? sep)%N then [] :: split sep r
    else match split sep r with
         | l :: ls => (c :: l) :: ls
         | [] => [[c]]
         end
  end.

(** [sep.join(parts)] *)
Fixpoint join (sep : N) (parts : list pystr) : pystr :=
  match parts with
  | [] => []
  | l :: rest =>
    match rest with
    | [] => l
    | _ :: _ => l ++ sep :: join sep rest
    end
  end.

Definition newline : N := 10.

End Str.

Import Str.

(** ** Python floats *)

Module Float.

Definition float := spec_float.

(** The values a Python [float] can take. *)
Definition is_float64 (x : float) : Prop := valid_binary 53 1024 x = true.

(** [a > b] and [a < b]; both are [False] as soon as one side is NaN. *)
Definition gt (a b : float) : bool := SFltb b a.
Definition lt (a b : float) : bool := SFltb a b.
Definition le (a b : float) : bool := SFleb a b.

(** The literals of the script, each the binary64 nearest to the decimal. *)
Definition f0_2 : float := S754_finite false 7205759403792794 (-55).
Definition f0_5 : float := S754_finite false 4503599627370496 (-53).

(** Unary minus. *)
Definition neg (x : float) : float := SFopp x.

(** The exact value of a finite float [x], counted in units of [2^-1074],
    the smallest positive binary64: every finite binary64 is a whole number
    of them. *)
Definition magnitude (m : positive) (e : Z) : Z := (Zpos m * 2 ^ (e + 1074))%Z.

Definition scaled (x : float) : option Z :=
  match x with
  | S754_zero _ => Some 0%Z
  | S754_finite s m e => Some (cond_Zopp s (magnitude m e))
  | _ => None
  end.

(** Nearest integer to [num / den], ties to the even one ([0 <= num], [0 < den]). *)
Definition round_half_even (num den : Z) : Z :=
  let q := (num / den)%Z in
  match (2 * (num mod den) ?= den)%Z with
  | Lt => q
  | Gt => (q + 1)%Z
  | Eq => if Z.even q then q else (q + 1)%Z
  end.

(** [|x| * 100] rounded to an integer, for a finite non-zero [x = m * 2^e]. *)
Definition hundredths (m : positive) (e : Z) : Z :=
  match e with
  | Zneg p => round_half_even (Zpos m * 100) (2 ^ Zpos p)
  | _ => (Zpos m * 100 * 2 ^ e)%Z
  end.

(** [h] is an integer nearest to [100 * m * 2^e]. *)
Definition nearest_hundredth (m : positive) (e h : Z) : Prop :=
  match e with
  | Zneg p => (Z.abs (2 * (Zpos m * 100) - 2 * h * 2 ^ Zpos p) <= 2 ^ Zpos p)%Z
  | _ => h = (Zpos m * 100 * 2 ^ e)%Z
  end.

Definition digit (d : Z) : N := (48 + Z.to_N d)%N.

Fixpoint uint_digits (u : Decimal.uint) : pystr :=
  match u with
  | Decimal.Nil => []
  | Decimal.D0 r => 48%N :: uint_digits r
  | Decimal.D1 r => 49%N :: uint_digits r
  | Decimal.D2 r => 50%N :: uint_digits r
  | Decimal.D3 r => 51%N :: uint_digits r
  | Decimal.D4 r => 52%N :: uint_digits r
  | Decimal.D5 r => 53%N :: uint_digits r
  | Decimal.D6 r => 54%N :: uint_digits r
  | Decimal.D7 r => 55%N :: uint_digits r
  | Decimal.D8 r => 56%N :: uint_digits r
  | Decimal.D9 r => 57%N :: uint_digits r
  end.

(** [str(n)] for [0 <= n]. *)
Definition decimal (n : Z) : pystr := uint_digits (N.to_uint (Z.to_N n)).

(** The digits of [h] hundredths: integer part, a point, two decimals. *)
Definition fixed2 (h : Z) : pystr :=
  decimal (h / 100) ++ lit "." ++ [digit (h mod 100 / 10); digit (h mod 10)].

Definition sign_prefix (s : bool) : pystr := if s then lit "-" else [].

(** [format(x, ".2f")], the conversion of [f"{x:.2f}"]. *)
Definition format_2f (x : float) : pystr :=
  match x with
  | S754_nan => lit "nan"
  | S754_infinity s => sign_prefix s ++ lit "inf"
  | S754_zero s => sign_prefix s ++ lit "0.00"
  | S754_finite s m e => sign_prefix s ++ fixed2 (hundredths m e)
  end.

End Float.

Import Float.

(** ** Exceptions, dictionaries, tables *)

Inductive exn :=
| IndexError
| KeyError (k : pystr)
| LibraryError (name : string).

Inductive result (A : Type) :=
| Ok (a : A)
| Raise (e : exn).

Arguments Ok {A} a.
Arguments Raise {A} e.

Definition rbind {A B} (r : result A) (k : A -> result B) : result B :=
  match r with
  | Ok a => k a
  | Raise e => Raise e
  end.

Notation "x <-? c ;; k" := (rbind c (fun x => k))
  (at level 61, c at next level, right associativity).
Notation "' p <-? c ;; k" := (rbind c (fun x => let 'p := x in k))
  (at level 61, p pattern, c at next level, right associativity).

Definition rmap {A B} (f : A -> B) (r : result A) : result B :=
  x <-? r ;; Ok (f x).

(** [xs[i]] *)
Definition index {A} (xs : list A) (i : nat) : result A :=
  match nth_error xs i with
  | Some x => Ok x
  | None => Raise IndexError
  end.

Module Dict.

(** A [dict] with [str] keys and [int] values, in insertion order. *)
Definition pydict := list (pystr * Z).

Fixpoint get (d : pydict) (k : pystr) : result Z :=
  match d with
  | [] => Raise (KeyError k)
  | (k', v) :: r => if Str.eqb k' k then Ok v else get r k
  end.

Fixpoint set (d : pydict) (k : pystr) (v : Z) : pydict :=
  match d with
  | [] => [(k, v)]
  | (k', v') :: r => if Str.eqb k' k then (k', v) :: r else (k', v') :: set r k v
  end.

(** [d[k] += 1] *)
Definition incr (d : pydict) (k : pystr) : result pydict :=
  v <-? get d k ;; Ok (set d k (v + 1)%Z).

Definition keys (d : pydict) : list pystr := map fst d.
Definition values (d : pydict) : list Z := map snd d.

(** [sum(d.values())] *)
Definition total (d : pydict) : Z := fold_right Z.add 0%Z (values d).

End Dict.

Import Dict.

Module Pandas.

(** What a cell of a table read from CSV can hold. *)
Inductive cell :=
| CStr (s : pystr)
| CInt (z : Z)
| CFloat (f : float)
| CBool (b : bool).

Definition nan : cell := CFloat S754_nan.

Definition isna (c : cell) : bool :=
  match c with
  | CFloat S754_nan => true
  | _ => false
  end.

(** Row-major view of a [DataFrame]; the row index is never kept
    ([ignore_index=True], [index=False]). *)
Record DataFrame := mkDF { columns : list pystr; rows : list (list cell) }.

(** [df.empty] *)
Definition empty (df : DataFrame) : bool :=
  match columns df, rows df with
  | [], _ | _, [] => true
  | _, _ => false
  end.

(** [name in df.columns] *)
Definition has_column (df : DataFrame) (name : pystr) : bool :=
  existsb (Str.eqb name) (columns df).

Fixpoint position (name : pystr) (cs : list pystr) : nat :=
  match cs with
  | [] => 0
  | c :: r => if Str.eqb c name then 0 else S (position name r)
  end.

(** [df[name]], for a label that is present. *)
Definition column (df : DataFrame) (name : pystr) : list cell :=
  map (fun r => nth (position name (columns df)) r nan) (rows df).

(** [series.dropna().tolist()] *)
Definition dropna (s : list cell) : list cell := filter (fun c => negb (isna c)) s.

Fixpoint columns_eqb (a b : list pystr) : bool :=
  match a, b with
  | [], [] => true
  | x :: a', y :: b' => Str.eqb x y && columns_eqb a' b'
  | _, _ => false
  end.

End Pandas.

Import Pandas.

(** ** The page: what it is given, what it shows, what it calls *)

Definition bytes := list Byte.byte.

Inductive input_method := EnterText | UploadCSV.

(** The widget values of one run of the script. *)
Record inputs := mkInputs {
  input_option : input_method;        (* st.radio *)
  user_input : pystr;                 (* st.text_area *)
  analyze_clicked : bool;             (* st.button *)
  uploaded_file : option bytes        (* st.file_uploader *)
}.

Inductive figure :=
| Pie (names : list pystr) (values : list Z) (title : pystr)
| Bar (x : list pystr) (y : list Z).

Inductive event :=
| Subheader (text : pystr)
| Warning (text : pystr)
| Error (text : pystr)
| Info (text : pystr)
| ShowDataframe (df : DataFrame)
| PlotlyChart (fig : figure)
| DownloadButton (label : pystr) (data : bytes) (file_name mime : pystr)
| SentimentCall (post : cell)
| ToxicCall (post : cell)
| WriteCsv (df : DataFrame).

(** The events that show the analysis ran: a classifier was called or
    the history file was written. *)
Definition pipeline_event (e : event) : bool :=
  match e with
  | SentimentCall _ | ToxicCall _ | WriteCsv _ => true
  | _ => false
  end.

Definition written (e : event) : bool :=
  match e with
  | WriteCsv _ => true
  | _ => false
  end.

(** [history_file]: the content of [analysis_history.csv], [None] while the
    file does not exist.  [trace]: every rendering, classifier call and
    file write so far, oldest first. *)
Record world := mkWorld {
  history_file : option bytes;
  trace : list event
}.

Definition M (A : Type) : Type := world -> result A * world.

Definition ret {A} (a : A) : M A := fun w => (Ok a, w).

Definition bind {A B} (c : M A) (k : A -> M B) : M B :=
  fun w =>
    match c w with
    | (Ok a, w') => k a w'
    | (Raise e, w') => (Raise e, w')
    end.

Notation "x <- c ;; k" := (bind c (fun x => k))
  (at level 61, c at next level, right associativity).
Notation "' p <- c ;; k" := (bind c (fun x => let 'p := x in k))
  (at level 61, p pattern, c at next level, right associativity).
Notation "c ;;; k" := (bind c (fun _ => k))
  (at level 61, right associativity).

Definition lift {A} (r : result A) : M A := fun w => (r, w).

Definition emit (e : event) : M unit :=
  fun w => (Ok tt, mkWorld (history_file w) (trace w ++ [e])).

(** The record the classifier returns per category: [{"label":…, "score":…}]. *)
Record prediction := mkPrediction { label : pystr; score : float }.

Definition classifier := cell -> result (list (list prediction)).

Definition history_columns : list pystr :=
  [lit "Post"; lit "Sentiment"; lit "Toxicity"].

(** ** The per-post branches (lines 120-128 and 133-138) *)

Definition sentiment_branch (sentiment : float) (sentiment_counts : pydict)
  : result (pystr * pydict) :=
  if gt sentiment f0_2 then
    c <-? incr sentiment_counts (lit "Positive") ;; Ok (lit "Positive", c)
  else if lt sentiment (neg f0_2) then
    c <-? incr sentiment_counts (lit "Negative") ;; Ok (lit "Negative", c)
  else
    c <-? incr sentiment_counts (lit "Neutral") ;; Ok (lit "Neutral", c).

Definition toxicity_branch (toxic_score : float) (toxic_counts : pydict)
  : result (pystr * pydict) :=
  if gt toxic_score f0_5 then
    c <-? incr toxic_counts (lit "Toxic") ;;
    Ok (lit "⚠️ Toxic (" ++ format_2f toxic_score ++ lit ")", c)
  else
    c <-? incr toxic_counts (lit "Safe") ;;
    Ok (lit "✅ Safe (" ++ format_2f toxic_score ++ lit ")", c).

(** Lines 114-115. *)
Definition sentiment_counts0 : pydict :=
  [(lit "Positive", 0%Z); (lit "Negative", 0%Z); (lit "Neutral", 0%Z)].
Definition toxic_counts0 : pydict := [(lit "Toxic", 0%Z); (lit "Safe", 0%Z)].

Section Script.

(** [TextBlob(post).sentiment.polarity] *)
Variable textblob_polarity : cell -> result float.

(** [load_model()]: the pipeline object, or the exception raised while
    building it. *)
Variable load_model : result classifier.

(** [pd.read_csv] on the content of a file. *)
Variable read_csv : bytes -> result DataFrame.

(** [df.to_csv(index=False)] in UTF-8: the bytes [df.to_csv(path, index=False)]
    writes and the ones [.to_csv(index=False).encode("utf-8")] returns. *)
Variable to_csv : DataFrame -> bytes.

(** [pd.concat] of two frames whose column labels differ (outer join and
    re-alignment); left abstract, a history with the three history columns
    never reaches it. *)
Variable concat_realigned : DataFrame -> DataFrame -> result DataFrame.

(** [pd.concat([a, b], ignore_index=True)] *)
Definition pd_concat (a b : DataFrame) : result DataFrame :=
  if columns_eqb (columns a) (columns b)
  then Ok (mkDF (columns a) (rows a ++ rows b))
  else concat_realigned a b.

(** [os.path.exists(HISTORY_FILE)] *)
Definition history_exists : M bool :=
  fun w => (Ok (match history_file w with Some _ => true | None => false end), w).

(** [pd.read_csv(HISTORY_FILE)] *)
Definition read_history_file : M DataFrame :=
  fun w =>
    match history_file w with
    | Some content => (read_csv content, w)
    | None => (Raise (LibraryError "FileNotFoundError"), w)
    end.

(** [df.to_csv(HISTORY_FILE, index=False)] *)
Definition write_history_file (df : DataFrame) : M unit :=
  fun w => (Ok tt, mkWorld (Some (to_csv df)) (trace w ++ [WriteCsv df])).

Definition load_history : M DataFrame :=
  present <- history_exists ;;
  if present then read_history_file
  else ret (mkDF history_columns []).

Definition save_history (df_new : DataFrame) : M DataFrame :=
  df_history <- load_history ;;
  df_all <- lift (pd_concat df_history df_new) ;;
  write_history_file df_all ;;;
  ret df_all.

(** *** Tab 1, input (lines 88-109) *)

Definition choose_input (inp : inputs) : M (list cell) :=
  emit (Subheader (lit "📥 Choose Input Method")) ;;;
  match input_option inp with
  | EnterText =>
    if analyze_clicked inp then
      match strip (user_input inp) with
      | _ :: _ => ret (map CStr (split newline (strip (user_input inp))))
      | [] =>
        emit (Warning (lit "⚠️ Please enter some posts to analyze.")) ;;;
        ret []
      end
    else ret []
  | UploadCSV =>
    match uploaded_file inp with
    | Some content =>
      df <- lift (read_csv content) ;;
      if negb (has_column df (lit "post")) then
        emit (Error (lit "❌ CSV must contain a column named 'post'")) ;;;
        ret []
      else ret (dropna (column df (lit "post")))
    | None => ret []
    end
  end.

(** *** Tab 1, analysis (lines 111-172) *)

(** Lines 131-132: the score of the category labelled ["toxic"]. *)
Definition toxic_score_of (toxic_model : classifier) (post : cell) : result float :=
  output <-? toxic_model post ;;
  predictions <-? index output 0 ;;
  hit <-? index (filter (fun p => Str.eqb (label p) (lit "toxic")) predictions) 0 ;;
  Ok (score hit).

(** [results], [sentiment_counts], [toxic_counts] *)
Definition loop_state : Type := list (cell * pystr * pystr) * pydict * pydict.

Definition loop_body (toxic_model : classifier) (post : cell) (st : loop_state)
  : M loop_state :=
  let '(results, sentiment_counts, toxic_counts) := st in
  emit (SentimentCall post) ;;;
  sentiment <- lift (textblob_polarity post) ;;
  '(sentiment_label, sentiment_counts) <-
     lift (sentiment_branch sentiment sentiment_counts) ;;
  emit (ToxicCall post) ;;;
  toxic_score <- lift (toxic_score_of toxic_model post) ;;
  '(toxicity, toxic_counts) <- lift (toxicity_branch toxic_score toxic_counts) ;;
  ret (results ++ [(post, sentiment_label, toxicity)], sentiment_counts, toxic_counts).

Fixpoint for_posts (toxic_model : classifier) (posts : list cell) (st : loop_state)
  : M loop_state :=
  match posts with
  | [] => ret st
  | post :: rest =>
    st' <- loop_body toxic_model post st ;;
    for_posts toxic_model rest st'
  end.

Definition result_row (r : cell * pystr * pystr) : list cell :=
  let '(post, sentiment_label, toxicity) := r in
  [post; CStr sentiment_label; CStr toxicity].

(** [pd.DataFrame(results, columns=["Post", "Sentiment", "Toxicity"])] *)
Definition results_frame (results : list (cell * pystr * pystr)) : DataFrame :=
  mkDF history_columns (map result_row results).

Definition run_analysis (toxic_model : classifier) (posts : list cell) : M unit :=
  match posts with
  | [] => ret tt
  | _ :: _ =>
    '(results, sentiment_counts, toxic_counts) <-
       for_posts toxic_model posts ([], sentiment_counts0, toxic_counts0) ;;
    let results_df := results_frame results in
    save_history results_df ;;;
    emit (Subheader (lit "📊 Analysis Results")) ;;;
    emit (ShowDataframe results_df) ;;;
    emit (Subheader (lit "📈 Sentiment Distribution")) ;;;
    emit (PlotlyChart (Pie (keys sentiment_counts) (values sentiment_counts)
                           (lit "Sentiment Breakdown"))) ;;;
    emit (Subheader (lit "⚠️ Toxic vs Safe Posts")) ;;;
    emit (PlotlyChart (Bar (keys toxic_counts) (values toxic_counts)))
  end.

(** [row] is what the loop body appends for [post]: the post itself with
    the labels the two branches give for the scores of that post. *)
Definition analysed (toxic_model : classifier) (post : cell)
    (row : cell * pystr * pystr) : Prop :=
  exists p s c1 c1' c2 c2',
    textblob_polarity post = Ok p /\
    toxic_score_of toxic_model post = Ok s /\
    sentiment_branch p c1 = Ok (snd (fst row), c1') /\
    toxicity_branch s c2 = Ok (snd row, c2') /\
    fst (fst row) = post.

(** What one pass of the loop body asks of the two classifiers. *)
Definition calls (post : cell) : list event := [SentimentCall post; ToxicCall post].

Definition tab1 (toxic_model : classifier) (inp : inputs) : M unit :=
  posts <- choose_input inp ;;
  run_analysis toxic_model posts.

(** *** Tab 2, history (lines 177-192) *)

Definition tab2 : M unit :=
  emit (Subheader (lit "📜 Full Analysis History")) ;;;
  history_df <- load_history ;;
  if negb (empty history_df) then
    emit (ShowDataframe history_df) ;;;
    emit (DownloadButton (lit "⬇️ Download Full History as CSV")
                         (to_csv history_df)
                         (lit "cyberbro_full_history.csv") (lit "text/csv"))
  else
    emit (Info (lit "ℹ️ No history found yet. Run an analysis to start building history.")).

(** One run of the script; the page set-up of lines 36-82 draws fixed
    content only and is left out. *)
Definition script (inp : inputs) : M unit :=
  toxic_model <- lift load_model ;;
  tab1 toxic_model inp ;;;
  tab2.

End Script.

(** ** Stand-ins for the libraries, used to run the script on examples *)

Module Sample.

Definition f0_6 : float := S754_finite false 5404319552844595 (-53).
Definition f0_9 : float := S754_finite false 8106479329266893 (-53).
Definition f0_0 : float := S754_zero false.

Definition love : pystr := lit "I love this!".
Definition hate : pystr := lit "I hate you".
Definition rain : pystr := lit "It is raining".

Definition polarity (post : cell) : result float :=
  match post with
  | CStr s =>
    if Str.eqb s love then Ok f0_6
    else if Str.eqb s hate then Ok (neg f0_5)
    else Ok f0_0
  | _ => Raise (LibraryError "TypeError")
  end.

Definition toxic_model : classifier :=
  fun post =>
    match post with
    | CStr s =>
      Ok [[mkPrediction (lit "insult") (if Str.eqb s hate then f0_6 else f0_0);
           mkPrediction (lit "toxic") (if Str.eqb s hate then f0_9 else f0_0)]]
    | _ => Raise (LibraryError "ValueError")
    end.

(** A classifier whose output has no ["toxic"] category. *)
Definition unlabelled_model : classifier :=
  fun _ => Ok [[mkPrediction (lit "insult") f0_0]].

Definition old_row : list cell :=
  [CStr (lit "old post"); CStr (lit "Neutral"); CStr (lit "✅ Safe (0.00)")].

(** A reader that knows two files: one starting with the byte [P] is a
    one-row history, any other non-empty one a table with a single column
    [text]. *)
Definition read_csv (content : bytes) : result DataFrame :=
  match content with
  | [] => Raise (LibraryError "EmptyDataError")
  | Byte.x50 :: _ => Ok (mkDF history_columns [old_row])
  | _ => Ok (mkDF [lit "text"] [[CStr love]])
  end.

Definition to_csv (df : DataFrame) : bytes :=
  Byte.x50 :: repeat Byte.x0a (List.length (rows df)).

Definition concat_realigned (a b : DataFrame) : result DataFrame :=
  Raise (LibraryError "InvalidIndexError").

Definition w0 : world := mkWorld None [].
Definition w1 : world := mkWorld (Some [Byte.x50; Byte.x0a]) [].

Definition three_posts : list cell := [CStr love; CStr hate; CStr rain].

(** The text area holding ["a\n\nb"]. *)
Definition gap_text : pystr := lit "a" ++ [newline; newline] ++ lit "b".

(** Two analysed posts, as rows of a batch. *)
Definition new_rows : list (list cell) :=
  [[CStr love; CStr (lit "Positive"); CStr (lit "✅ Safe (0.00)")];
   [CStr hate; CStr (lit "Negative"); CStr (lit "⚠️ Toxic (0.90)")]].

(** An upload whose only column is [text]. *)
Definition upload_without_post : inputs :=
  mkInputs UploadCSV [] false (Some [Byte.x74; Byte.x0a]).

(** The text area holding [gap_text], the button pressed. *)
Definition gap_entry : inputs := mkInputs EnterText gap_text true None.

(** The text area holding blanks only. *)
Definition blank_entry : inputs := mkInputs EnterText (lit "  ") true None.

Definition script := script polarity (Ok toxic_model) read_csv to_csv concat_realigned.

End Sample.

(** ** Reading the batch: how many rows carry a label *)

Fixpoint starts_with (prefix s : pystr) : bool :=
  match prefix, s with
  | [], _ => true
  | x :: prefix', y :: s' => (x =? y)%N && starts_with prefix' s'
  | _ :: _, [] => false
  end.

(** Rows of the batch whose sentiment label is [l]. *)
Definition labelled (l : pystr) (results : list (cell * pystr * pystr)) : Z :=
  Z.of_nat (length (filter (fun r => Str.eqb (snd (fst r)) l) results)).

(** Rows of the batch whose toxicity label begins with [prefix]. *)
Definition flagged (prefix : pystr) (results : list (cell * pystr * pystr)) : Z :=
  Z.of_nat (length (filter (fun r => starts_with prefix (snd r)) results)).

(** More stand-ins: a reader that agrees with [Sample.to_csv] on the
    tables made of the first rows of [Sample.new_rows], and a few inputs. *)
Module Sample2.

Definition read_csv (content : bytes) : result DataFrame :=
  match content with
  | [] => Raise (LibraryError "EmptyDataError")
  | _ :: marks => Ok (mkDF history_columns (firstn (length marks) Sample.new_rows))
  end.

Definition first_batch : DataFrame := mkDF history_columns (firstn 1 Sample.new_rows).
Definition second_batch : DataFrame := mkDF history_columns (skipn 1 Sample.new_rows).

(** A history file that exists and is empty: [pd.read_csv] raises on it. *)
Definition w_unreadable : world := mkWorld (Some []) [].

Definition hate_entry : inputs := mkInputs EnterText Sample.hate true None.

(** An upload whose [post] column holds nothing but missing values. *)
Definition null_posts : DataFrame := mkDF [lit "post"] [[nan]; [nan]].
Definition read_null_posts (content : bytes) : result DataFrame := Ok null_posts.
Definition upload_entry : inputs := mkInputs UploadCSV [] false (Some [Byte.x70]).

(** 0.5 + 2^-53, the double next above 0.5. *)
Definition above_half : float := S754_finite false 4503599627370497 (-53).

End Sample2.

(** * Properties *)

(** ** Literals and formatting, checked by evaluation *)

Example lit_check_mark : lit "✅ Safe (" = [9989; 32; 83; 97; 102; 101; 32; 40]%N.
Proof. reflexivity. Qed.

Example lit_warning_sign : lit "⚠️ " = [9888; 65039; 32]%N.
Proof. reflexivity. Qed.

Example format_2f_0_2 : format_2f f0_2 = lit "0.20".
Proof. reflexivity. Qed.

(* 0.125 is a tie: the even neighbour 0.12 is chosen, as CPython does. *)
Example format_2f_tie : format_2f (S754_finite false 1 (-3)) = lit "0.12".
Proof. reflexivity. Qed.

Example format_2f_negative : format_2f (S754_finite true 5 2) = lit "-20.00".
Proof. reflexivity. Qed.

(** [f0_2] is the double nearest to 1/5: [|m * 2^-55 - 1/5| <= 2^-56],
    cleared of denominators ([f0_5] is 1/2 exactly). *)
Example f0_2_nearest : (Z.abs (5 * 7205759403792794 - 2 ^ 55) * 2 <= 5)%Z.
Proof. vm_compute. discriminate. Qed.

Example f0_2_valid : is_float64 f0_2 /\ is_float64 f0_5 /\ is_float64 (neg f0_2).
Proof. repeat split. Qed.

(** ** Strings and dictionaries *)

Lemma eqb_eq (a b : pystr) : Str.eqb a b = true <-> a = b.
Proof.
  revert b; induction a as [|x a IH]; intros [|y b]; simpl; split; intro H;
    try reflexivity; try discriminate.
  - apply andb_true_iff in H as [Hx Hr]. apply N.eqb_eq in Hx. apply IH in Hr.
    now subst.
  - injection H as -> ->. rewrite N.eqb_refl. simpl. now apply IH.
Qed.

Lemma eqb_refl (a : pystr) : Str.eqb a a = true.
Proof. now apply eqb_eq. Qed.

Lemma keys_two (d : pydict) (a b : pystr) :
  keys d = [a; b] -> exists x y, d = [(a, x); (b, y)].
Proof.
  destruct d as [|[k1 v1] [|[k2 v2] [|? ?]]]; simpl; intro H; try discriminate.
  injection H as -> ->. now exists v1, v2.
Qed.

Lemma keys_three (d : pydict) (a b c : pystr) :
  keys d = [a; b; c] -> exists x y z, d = [(a, x); (b, y); (c, z)].
Proof.
  destruct d as [|[k1 v1] [|[k2 v2] [|[k3 v3] [|? ?]]]]; simpl; intro H;
    try discriminate.
  injection H as -> -> ->. now exists v1, v2, v3.
Qed.

Lemma set_present (d : pydict) (k : pystr) (x v : Z) :
  get d k = Ok x ->
  keys (set d k v) = keys d /\ total (set d k v) = (total d - x + v)%Z.
Proof.
  unfold total. induction d as [|[k' v'] d IH]; simpl; [discriminate|].
  destruct (Str.eqb k' k).
  - intro H. injection H as ->. simpl. split; [reflexivity | lia].
  - intro H. destruct (IH H) as [K T]. simpl. rewrite K, T. split; [reflexivity | lia].
Qed.

Lemma incr_counts (d d' : pydict) (k : pystr) :
  incr d k = Ok d' -> keys d' = keys d /\ total d' = (total d + 1)%Z.
Proof.
  unfold incr, rbind. destruct (get d k) as [x|e] eqn:G; [|discriminate].
  intro H. injection H as <-.
  destruct (set_present d k x (x + 1) G) as [K T]. split; [exact K | lia].
Qed.

Lemma sentiment_branch_counts (p : float) (sc sc' : pydict) (lbl : pystr) :
  sentiment_branch p sc = Ok (lbl, sc') ->
  keys sc' = keys sc /\ total sc' = (total sc + 1)%Z.
Proof.
  unfold sentiment_branch, rbind.
  destruct (gt p f0_2); [|destruct (lt p (neg f0_2))];
    match goal with |- context [incr sc ?k] =>
      destruct (incr sc k) as [c|e] eqn:I; [|discriminate] end;
    intro H; injection H as _ <-; exact (incr_counts _ _ _ I).
Qed.

Lemma toxicity_branch_counts (s : float) (tc tc' : pydict) (tox : pystr) :
  toxicity_branch s tc = Ok (tox, tc') ->
  keys tc' = keys tc /\ total tc' = (total tc + 1)%Z.
Proof.
  unfold toxicity_branch, rbind.
  destruct (gt s f0_5);
    match goal with |- context [incr tc ?k] =>
      destruct (incr tc k) as [c|e] eqn:I; [|discriminate] end;
    intro H; injection H as _ <-; exact (incr_counts _ _ _ I).
Qed.

Lemma sentiment_branch_total (p : float) (sc : pydict) :
  keys sc = keys sentiment_counts0 ->
  exists lbl sc', sentiment_branch p sc = Ok (lbl, sc').
Proof.
  intro K. apply keys_three in K as (x & y & z & ->). unfold sentiment_branch.
  destruct (gt p f0_2); [|destruct (lt p (neg f0_2))]; eexists; eexists; reflexivity.
Qed.

Lemma toxicity_branch_total (s : float) (tc : pydict) :
  keys tc = keys toxic_counts0 ->
  exists tox tc', toxicity_branch s tc = Ok (tox, tc').
Proof.
  intro K. apply keys_two in K as (x & y & ->). unfold toxicity_branch.
  destruct (gt s f0_5); eexists; eexists; reflexivity.
Qed.

Lemma sentiment_branch_incr (p : float) (sc sc' : pydict) (lbl : pystr) :
  sentiment_branch p sc = Ok (lbl, sc') -> exists k, incr sc k = Ok sc'.
Proof.
  unfold sentiment_branch, rbind.
  destruct (gt p f0_2); [|destruct (lt p (neg f0_2))];
    match goal with |- context [incr sc ?k] =>
      destruct (incr sc k) as [c|e] eqn:I; [|discriminate];
      intro H; injection H as _ <-; exists k; exact I end.
Qed.

Lemma toxicity_branch_incr (s : float) (tc tc' : pydict) (tox : pystr) :
  toxicity_branch s tc = Ok (tox, tc') -> exists k, incr tc k = Ok tc'.
Proof.
  unfold toxicity_branch, rbind.
  destruct (gt s f0_5);
    match goal with |- context [incr tc ?k] =>
      destruct (incr tc k) as [c|e] eqn:I; [|discriminate];
      intro H; injection H as _ <-; exists k; exact I end.
Qed.

(** [d[k] += 1] touches the bucket [k] and no other. *)
Lemma incr_one_bucket (d d' : pydict) (k : pystr) :
  incr d k = Ok d' ->
  (exists v, get d k = Ok v /\ get d' k = Ok (v + 1)%Z)
  /\ forall k', k' <> k -> get d' k' = get d k'.
Proof.
  unfold incr, rbind. destruct (get d k) as [x|e] eqn:G; [|discriminate].
  intro H. injection H as <-. split.
  - exists x. split; [reflexivity|]. revert G.
    induction d as [|[k1 v1] d IH]; simpl; [discriminate|].
    destruct (Str.eqb k1 k) eqn:E; simpl; rewrite E; [reflexivity | exact IH].
  - intros k' Hk. clear G.
    induction d as [|[k1 v1] d IH]; simpl.
    + destruct (Str.eqb k k') eqn:E; [|reflexivity].
      apply eqb_eq in E. congruence.
    + destruct (Str.eqb k1 k) eqn:E; simpl.
      * destruct (Str.eqb k1 k') eqn:E'; [|reflexivity].
        apply eqb_eq in E, E'. congruence.
      * now rewrite IH.
Qed.

(** *** [strip] and [split] *)

Lemma lstrip_head (s : pystr) (c : N) (r : pystr) :
  lstrip s = c :: r -> isspace c = false.
Proof.
  induction s as [|x s IH]; simpl; [discriminate|].
  destruct (isspace x) eqn:E; [exact IH|].
  intro H. injection H as <- _. exact E.
Qed.

Lemma lstrip_suffix (s : pystr) : exists pre, s = pre ++ lstrip s.
Proof.
  induction s as [|x s [pre IH]]; simpl.
  - now exists [].
  - destruct (isspace x).
    + exists (x :: pre). simpl. now f_equal.
    + now exists [].
Qed.

(** A stripped string neither begins nor ends with white space. *)
Lemma strip_ends (s : pystr) (c : N) (r : pystr) :
  (strip s = c :: r -> isspace c = false)
  /\ (strip s = r ++ [c] -> isspace c = false).
Proof.
  unfold strip, rstrip.
  set (t := lstrip s). set (u := lstrip (rev t)).
  split; intro H.
  - (* the first character is the last one of [u], hence the first of [t] *)
    destruct (lstrip_suffix (rev t)) as [pre E]. fold u in E.
    assert (Hu : u = rev r ++ [c]).
    { rewrite <- (rev_involutive u), H. reflexivity. }
    assert (Ht : t = c :: rev (pre ++ rev r)).
    { rewrite <- (rev_involutive t), E, Hu, app_assoc, rev_app_distr. reflexivity. }
    exact (lstrip_head s _ _ Ht).
  - assert (Hu : u = c :: rev r).
    { rewrite <- (rev_involutive u), H, rev_app_distr. reflexivity. }
    exact (lstrip_head (rev t) _ _ Hu).
Qed.

Lemma split_nonempty (sep : N) (s : pystr) : split sep s <> [].
Proof.
  destruct s as [|c r]; simpl; [discriminate|].
  destruct (c =? sep)%N; [discriminate|].
  destruct (split sep r); discriminate.
Qed.

Lemma split_head (sep c : N) (r : pystr) :
  c <> sep -> exists l, hd [] (split sep (c :: r)) = c :: l.
Proof.
  intro H. simpl. apply N.eqb_neq in H. rewrite H.
  destruct (split sep r) as [|l ls]; eexists; reflexivity.
Qed.

Lemma split_last (sep c : N) (r : pystr) :
  c <> sep -> exists l, last (split sep (r ++ [c])) [] = l ++ [c].
Proof.
  intro H. apply N.eqb_neq in H. induction r as [|x r [l IH]].
  - simpl. rewrite H. now exists [].
  - cbn [app split]. pose proof (split_nonempty sep (r ++ [c])) as Hne.
    destruct (x =? sep)%N.
    + exists l. rewrite <- IH.
      destruct (split sep (r ++ [c])); [contradiction | reflexivity].
    + destruct (split sep (r ++ [c])) as [|l0 [|l1 ls]]; [contradiction| |].
      * simpl in IH. subst l0. now exists (x :: l).
      * exists l. rewrite <- IH. reflexivity.
Qed.

(** Splitting loses nothing: joining the lines gives the text back. *)
Lemma join_split (sep : N) (s : pystr) : join sep (split sep s) = s.
Proof.
  induction s as [|c r IH]; [reflexivity|].
  cbn [split]. pose proof (split_nonempty sep r) as Hne.
  destruct (c =? sep)%N eqn:E.
  - apply N.eqb_eq in E. subst c.
    destruct (split sep r) as [|l ls]; [contradiction|].
    cbn [join app]. cbn [join] in IH. now rewrite IH.
  - destruct (split sep r) as [|l [|l1 ls]]; [contradiction| |].
    + simpl in *. now rewrite IH.
    + cbn [join] in *. rewrite <- IH. reflexivity.
Qed.

Lemma lstrip_keeps (s : pystr) (c : N) :
  In c s -> isspace c = false -> In c (lstrip s).
Proof.
  intros Hin Hc. induction s as [|x s IH]; [easy|]. simpl.
  destruct (isspace x) eqn:E; [|exact Hin].
  destruct Hin as [->|Hin]; [congruence | now apply IH].
Qed.

(** A string that starts or ends with a visible character is not blank. *)
Lemma strip_not_blank (s : pystr) (c : N) :
  In c s -> isspace c = false -> strip s <> [].
Proof.
  intros Hin Hc. unfold strip, rstrip.
  assert (H : In c (rev (lstrip (rev (lstrip s))))).
  { apply in_rev. rewrite rev_involutive. apply lstrip_keeps; [|exact Hc].
    apply -> in_rev. now apply lstrip_keeps. }
  intro E. rewrite E in H. exact H.
Qed.

Lemma split_lines (sep : N) (s : pystr) :
  Forall (fun l => ~ In sep l) (split sep s)
  /\ length (split sep s) = S (count_occ N.eq_dec s sep).
Proof.
  induction s as [|c r [IHf IHl]].
  - split; [repeat constructor; intros [] | reflexivity].
  - cbn [split count_occ]. pose proof (split_nonempty sep r) as Hne.
    destruct (N.eqb_spec c sep) as [->|Hc].
    + destruct (N.eq_dec sep sep) as [_|C]; [|contradiction].
      split; [constructor; [intros [] | exact IHf] | simpl; now rewrite IHl].
    + destruct (N.eq_dec c sep) as [C|_]; [contradiction|].
      destruct (split sep r) as [|l ls]; [contradiction|].
      split; [|exact IHl].
      inversion IHf as [|? ? Hl Hls]; subst. constructor; [|exact Hls].
      intros [E|E]; [now apply Hc | now apply Hl].
Qed.

(** ** Floats: comparisons are those of the exact values *)

Section Exact.

Local Open Scope Z_scope.

Lemma digits2_pos_bounds (m : positive) :
  2 ^ (Zpos (digits2_pos m) - 1) <= Zpos m < 2 ^ Zpos (digits2_pos m).
Proof.
  induction m as [m IH|m IH|]; cbn [digits2_pos]; [| |simpl; lia];
    rewrite Pos2Z.inj_succ;
    replace (Z.succ (Zpos (digits2_pos m)) - 1)
      with (Z.succ (Zpos (digits2_pos m) - 1)) by lia;
    rewrite !Z.pow_succ_r by lia; lia.
Qed.

Lemma bounded_facts (m : positive) (e : Z) :
  bounded 53 1024 m e = true ->
  -1074 <= e /\ Zpos m < 2 ^ 53 /\ (e = -1074 \/ 2 ^ 52 <= Zpos m).
Proof.
  unfold bounded, canonical_mantissa, fexp, emin. intro H.
  apply andb_true_iff in H as [H _]. apply Z.eqb_eq in H.
  pose proof (digits2_pos_bounds m) as [Lo Hi].
  set (d := Zpos (digits2_pos m)) in *.
  assert (Hd : d <= 53) by lia.
  split; [lia|]. split.
  - apply Z.lt_le_trans with (2 ^ d); [exact Hi|].
    apply Z.pow_le_mono_r; lia.
  - destruct (Z.eq_dec e (-1074)) as [E|E]; [now left | right].
    assert (d = 53) by lia. subst d. rewrite H0 in Lo. exact Lo.
Qed.

Lemma magnitude_pos (m : positive) (e : Z) :
  bounded 53 1024 m e = true -> 0 < magnitude m e.
Proof.
  intro B. apply bounded_facts in B as (L & _). unfold magnitude.
  apply Z.mul_pos_pos; [reflexivity | apply Z.pow_pos_nonneg; lia].
Qed.

Lemma magnitude_lt (m1 m2 : positive) (e1 e2 : Z) :
  bounded 53 1024 m1 e1 = true -> bounded 53 1024 m2 e2 = true ->
  e1 < e2 -> magnitude m1 e1 < magnitude m2 e2.
Proof.
  intros B1 B2 He. unfold magnitude.
  apply bounded_facts in B1 as (L1 & U1 & _).
  apply bounded_facts in B2 as (L2 & _ & [E|N2]); [lia|].
  replace (e2 + 1074) with ((e2 - e1) + (e1 + 1074)) by lia.
  rewrite (Z.pow_add_r 2 (e2 - e1) (e1 + 1074)) by lia.
  assert (P : 0 < 2 ^ (e1 + 1074)) by (apply Z.pow_pos_nonneg; lia).
  assert (Q : 2 ^ 1 <= 2 ^ (e2 - e1)) by (apply Z.pow_le_mono_r; lia).
  change (2 ^ 1) with 2 in Q. change (2 ^ 53) with 9007199254740992 in U1.
  change (2 ^ 52) with 4503599627370496 in N2.
  rewrite Z.mul_assoc. apply Z.mul_lt_mono_pos_r; [exact P|]. nia.
Qed.

Lemma magnitude_compare (m1 m2 : positive) (e1 e2 : Z) :
  bounded 53 1024 m1 e1 = true -> bounded 53 1024 m2 e2 = true ->
  match e1 ?= e2 with
  | Lt => Lt
  | Gt => Gt
  | Eq => Pos.compare_cont Eq m1 m2
  end = (magnitude m1 e1 ?= magnitude m2 e2).
Proof.
  intros B1 B2. symmetry. destruct (Z.compare_spec e1 e2) as [E|L|G].
  - subst e2. apply bounded_facts in B1 as (L1 & _). unfold magnitude.
    assert (P : 0 < 2 ^ (e1 + 1074)) by (apply Z.pow_pos_nonneg; lia).
    change (Pos.compare_cont Eq m1 m2) with (Zpos m1 ?= Zpos m2).
    destruct (Z.compare_spec (Zpos m1) (Zpos m2)) as [E|L|G].
    + rewrite E. apply Z.compare_refl.
    + apply Z.compare_lt_iff. nia.
    + apply Z.compare_gt_iff. nia.
  - apply Z.compare_lt_iff. now apply magnitude_lt.
  - apply Z.compare_gt_iff. now apply magnitude_lt.
Qed.

Lemma SFcompare_exact (x y : float) (a b : Z) :
  is_float64 x -> is_float64 y -> scaled x = Some a -> scaled y = Some b ->
  SFcompare x y = Some (a ?= b).
Proof.
  unfold is_float64.
  destruct x as [s1| | |s1 m1 e1], y as [s2| | |s2 m2 e2];
    cbn [scaled valid_binary SFcompare];
    intros V1 V2 A B; try discriminate;
    injection A as <-; injection B as <-; f_equal; symmetry.
  - pose proof (magnitude_pos m2 e2 V2).
    destruct s2; cbn [cond_Zopp];
      [apply Z.compare_gt_iff | apply Z.compare_lt_iff]; lia.
  - pose proof (magnitude_pos m1 e1 V1).
    destruct s1; cbn [cond_Zopp];
      [apply Z.compare_lt_iff | apply Z.compare_gt_iff]; lia.
  - pose proof (magnitude_pos m1 e1 V1). pose proof (magnitude_pos m2 e2 V2).
    destruct s1, s2; cbn [cond_Zopp].
    + rewrite Z.compare_opp, (Z.compare_antisym (magnitude m1 e1)).
      rewrite <- (magnitude_compare m1 m2 e1 e2 V1 V2).
      destruct (e1 ?= e2); reflexivity.
    + apply Z.compare_lt_iff. lia.
    + apply Z.compare_gt_iff. lia.
    + symmetry. apply magnitude_compare; assumption.
Qed.

Lemma SFltb_exact (x y : float) (a b : Z) :
  is_float64 x -> is_float64 y -> scaled x = Some a -> scaled y = Some b ->
  SFltb x y = true <-> a < b.
Proof.
  intros V1 V2 A B. unfold SFltb. rewrite (SFcompare_exact x y a b V1 V2 A B).
  rewrite <- Z.compare_lt_iff. destruct (a ?= b); split; congruence.
Qed.

(** [a > b] and [a < b] on binary64 data are the order of their values. *)
Lemma gt_exact (x y : float) (a b : Z) :
  is_float64 x -> is_float64 y -> scaled x = Some a -> scaled y = Some b ->
  gt x y = true <-> b < a.
Proof. intros V1 V2 A B. exact (SFltb_exact y x b a V2 V1 B A). Qed.

Lemma lt_exact (x y : float) (a b : Z) :
  is_float64 x -> is_float64 y -> scaled x = Some a -> scaled y = Some b ->
  lt x y = true <-> a < b.
Proof. intros V1 V2 A B. exact (SFltb_exact x y a b V1 V2 A B). Qed.

End Exact.

(** ** Floats: the two thresholds cannot both fire *)

Lemma gt_lt_exclusive (p : float) :
  gt p f0_2 = true -> lt p (neg f0_2) = false.
Proof.
  unfold gt, lt, neg, f0_2, SFltb, SFcompare, SFopp.
  destruct p as [[|]|[|]| |[|] m e]; intro H;
    solve [reflexivity | discriminate H].
Qed.

Lemma SFcompare_antisym (s t : float) :
  SFcompare t s = option_map CompOpp (SFcompare s t).
Proof.
  unfold SFcompare.
  destruct s as [[|]|[|]| |[|] m e], t as [[|]|[|]| |[|] m' e'];
    try reflexivity; simpl; f_equal; rewrite (Z.compare_antisym e' e);
    destruct (e' ?= e)%Z; simpl; try reflexivity;
    rewrite (Pos.compare_cont_antisym m m' Eq); simpl;
    rewrite ?CompOpp_involutive; reflexivity.
Qed.

Lemma le_not_gt (s t : float) : le s t = true -> gt s t = false.
Proof.
  unfold le, gt, SFleb, SFltb. rewrite (SFcompare_antisym s t).
  destruct (SFcompare s t) as [[| |]|]; simpl; intro H;
    solve [reflexivity | discriminate H].
Qed.

(** ** C1 and C2: the per-post labels *)

(** C1.  The sentiment label is Positive when the polarity is above 0.2,
    Negative when it is below -0.2 and Neutral in every other case; the two
    boundary values 0.2 and -0.2 themselves are Neutral.  [counts] is any
    state of the counter dictionary of the loop; [gt] and [lt] order
    binary64 data by their exact values ([gt_exact], [lt_exact]). *)
Theorem sentiment_label_thresholds (p : float) (counts : pydict) :
  keys counts = keys sentiment_counts0 ->
  (gt p f0_2 = true ->
     rmap fst (sentiment_branch p counts) = Ok (lit "Positive")) /\
  (lt p (neg f0_2) = true ->
     rmap fst (sentiment_branch p counts) = Ok (lit "Negative")) /\
  (gt p f0_2 = false -> lt p (neg f0_2) = false ->
     rmap fst (sentiment_branch p counts) = Ok (lit "Neutral")) /\
  rmap fst (sentiment_branch f0_2 counts) = Ok (lit "Neutral") /\
  rmap fst (sentiment_branch (neg f0_2) counts) = Ok (lit "Neutral").
Proof.
  intro Hk. apply keys_three in Hk as (x & y & z & ->).
  repeat split.
  - intro H. unfold sentiment_branch. rewrite H. reflexivity.
  - intro H. unfold sentiment_branch. rewrite H.
    destruct (gt p f0_2) eqn:G.
    + apply gt_lt_exclusive in G. congruence.
    + reflexivity.
  - intros H1 H2. unfold sentiment_branch. rewrite H1, H2. reflexivity.
Qed.

Lemma round_half_even_nearest (num den : Z) :
  (0 < den)%Z ->
  (Z.abs (2 * num - 2 * round_half_even num den * den) <= den)%Z.
Proof.
  intro Hd. unfold round_half_even.
  pose proof (Z.div_mod num den ltac:(lia)) as E.
  pose proof (Z.mod_pos_bound num den Hd) as B.
  set (q := (num / den)%Z) in *. set (r := (num mod den)%Z) in *.
  destruct (Z.compare_spec (2 * r) den) as [H|H|H].
  - destruct (Z.even q); nia.
  - nia.
  - nia.
Qed.

Lemma hundredths_nearest (m : positive) (e : Z) :
  nearest_hundredth m e (hundredths m e).
Proof.
  destruct e as [|p|p]; simpl; try reflexivity.
  apply (round_half_even_nearest (Zpos m * 100) (2 ^ Zpos p))%Z.
  apply Z.pow_pos_nonneg; lia.
Qed.

(** C2.  A post is labelled toxic exactly when its score is above 0.5 and
    safe otherwise, in particular whenever the score is at most 0.5 (0.5
    itself included); either label is the fixed prefix, the score as
    [".2f"] prints it, and a closing bracket.  For a finite score the
    printed number is the sign followed by the nearest count of hundredths,
    shown with two decimals. *)
Theorem toxicity_label_threshold (s : float) (counts : pydict) :
  keys counts = keys toxic_counts0 ->
  (gt s f0_5 = true ->
     rmap fst (toxicity_branch s counts)
     = Ok (lit "⚠️ Toxic (" ++ format_2f s ++ lit ")")) /\
  (gt s f0_5 = false ->
     rmap fst (toxicity_branch s counts)
     = Ok (lit "✅ Safe (" ++ format_2f s ++ lit ")")) /\
  (le s f0_5 = true -> gt s f0_5 = false) /\
  gt f0_5 f0_5 = false /\
  (forall sg m e, s = S754_finite sg m e ->
     exists h, format_2f s = sign_prefix sg ++ fixed2 h /\ nearest_hundredth m e h).
Proof.
  intro Hk. apply keys_two in Hk as (x & y & ->).
  split; [|split; [|split; [|split]]].
  - intro H. unfold toxicity_branch. rewrite H. reflexivity.
  - intro H. unfold toxicity_branch. rewrite H. reflexivity.
  - apply le_not_gt.
  - reflexivity.
  - intros sg m e ->. exists (hundredths m e). split.
    + reflexivity.
    + apply hundredths_nearest.
Qed.

(** ** The history store and the page *)

Section Facts.

Variable textblob_polarity : cell -> result float.
Variable load_model : result classifier.
Variable read_csv : bytes -> result DataFrame.
Variable to_csv : DataFrame -> bytes.
Variable concat_realigned : DataFrame -> DataFrame -> result DataFrame.

Lemma world_eta (w : world) : mkWorld (history_file w) (trace w) = w.
Proof. now destruct w. Qed.

Lemma columns_eqb_refl (cs : list pystr) : columns_eqb cs cs = true.
Proof.
  induction cs as [|c cs IH]; simpl; [reflexivity|].
  now rewrite eqb_refl, IH.
Qed.

Lemma load_history_run (w : world) :
  load_history read_csv w
  = (match history_file w with
     | Some content => read_csv content
     | None => Ok (mkDF history_columns [])
     end, w).
Proof. destruct w as [[content|] t]; reflexivity. Qed.

(** [load_history] reads, it never writes or renders. *)
Lemma load_history_world (w : world) : snd (load_history read_csv w) = w.
Proof.
  destruct w as [[content|] t]; reflexivity.
Qed.

(** C6.  Without a history file [load_history] returns the table with the
    three columns Post, Sentiment, Toxicity and no row; with one, it
    returns what [pd.read_csv] makes of the whole content of the file.  In
    both cases nothing is written or shown. *)
Theorem load_history_cases (w : world) :
  match history_file w with
  | None =>
    load_history read_csv w
    = (Ok (mkDF [lit "Post"; lit "Sentiment"; lit "Toxicity"] []), w)
  | Some content => load_history read_csv w = (read_csv content, w)
  end.
Proof.
  destruct w as [[content|] t]; reflexivity.
Qed.

(** C3.  Given the table [df_history] that [load_history] returns and a
    batch, both with the three history columns, [save_history] returns the
    table whose rows are those of [df_history] followed by those of the
    batch, each in its order and unchanged, and leaves the history file
    holding the CSV of that whole table; no row is lost. *)
Theorem save_history_appends (w : world) (df_history df_new : DataFrame) :
  load_history read_csv w = (Ok df_history, w) ->
  columns df_history = history_columns ->
  columns df_new = history_columns ->
  let df_all := mkDF history_columns (rows df_history ++ rows df_new) in
  save_history read_csv to_csv concat_realigned df_new w
  = (Ok df_all, mkWorld (Some (to_csv df_all)) (trace w ++ [WriteCsv df_all]))
  /\ length (rows df_all) = (length (rows df_history) + length (rows df_new))%nat.
Proof.
  intros Hload Hh Hn df_all. split.
  - unfold save_history, bind. rewrite Hload.
    unfold lift, pd_concat. rewrite Hh, Hn, columns_eqb_refl.
    reflexivity.
  - unfold df_all. simpl. apply length_app.
Qed.

(** C7.  An uploaded table without a column named [post]: the Analyzer
    tab shows its fixed heading and the error message and nothing else, no
    classifier is called and the history file is not written; the rest of
    the run (the History tab) only reads the file. *)
Theorem missing_post_column_stops (tm : classifier) (inp : inputs) (w : world)
    (content : bytes) (df : DataFrame) :
  input_option inp = UploadCSV ->
  uploaded_file inp = Some content ->
  read_csv content = Ok df ->
  has_column df (lit "post") = false ->
  let shown := [Subheader (lit "📥 Choose Input Method");
                Error (lit "❌ CSV must contain a column named 'post'")] in
  tab1 textblob_polarity read_csv to_csv concat_realigned tm inp w
  = (Ok tt, mkWorld (history_file w) (trace w ++ shown))
  /\ (load_model = Ok tm ->
      exists r later,
        script textblob_polarity load_model read_csv to_csv concat_realigned inp w
        = (r, mkWorld (history_file w) (trace w ++ shown ++ later))
        /\ existsb pipeline_event (shown ++ later) = false).
Proof.
  intros Hopt Hup Hread Hcol shown.
  assert (T1 : tab1 textblob_polarity read_csv to_csv concat_realigned tm inp w
               = (Ok tt, mkWorld (history_file w) (trace w ++ shown))).
  { unfold tab1, choose_input, bind, emit, lift, ret.
    rewrite Hopt, Hup. simpl. rewrite Hread, Hcol. simpl.
    now rewrite <- app_assoc. }
  split; [exact T1|].
  intro Hm. unfold script, bind, lift. rewrite Hm, T1.
  set (w1 := mkWorld (history_file w) (trace w ++ shown)).
  unfold tab2, bind, emit.
  set (w2 := mkWorld (history_file w1) (trace w1 ++ _)).
  pose proof (load_history_world w2) as Hw.
  destruct (load_history read_csv w2) as [[h|e] w3]; simpl in Hw; subst w3;
    [destruct (negb (empty h))|]; unfold w2, w1; simpl; rewrite <- !app_assoc;
    eexists; eexists; (split; [reflexivity|]).
  all: reflexivity.
Qed.

(** *** The loop *)

Lemma loop_body_ok (tm : classifier) (post : cell) (res : list (cell * pystr * pystr))
    (sc tc : pydict) (st' : loop_state) (w w' : world) :
  loop_body textblob_polarity tm post (res, sc, tc) w = (Ok st', w') ->
  exists p lbl sc' s tox tc',
    textblob_polarity post = Ok p /\
    sentiment_branch p sc = Ok (lbl, sc') /\
    toxic_score_of tm post = Ok s /\
    toxicity_branch s tc = Ok (tox, tc') /\
    st' = (res ++ [(post, lbl, tox)], sc', tc') /\
    w' = mkWorld (history_file w) (trace w ++ calls post).
Proof.
  unfold loop_body, bind, emit, lift, ret. simpl.
  destruct (textblob_polarity post) as [p|e] eqn:Hp; [|discriminate].
  destruct (sentiment_branch p sc) as [[lbl sc']|e] eqn:Hs; [|discriminate].
  simpl.
  destruct (toxic_score_of tm post) as [s|e] eqn:Ht; [|discriminate].
  destruct (toxicity_branch s tc) as [[tox tc']|e] eqn:Hx; [|discriminate].
  intro H. injection H as <- <-.
  exists p, lbl, sc', s, tox, tc'. rewrite <- app_assoc.
  repeat split; assumption.
Qed.

Lemma loop_body_run (tm : classifier) (post : cell) (res : list (cell * pystr * pystr))
    (sc tc : pydict) (w : world) p lbl sc' s tox tc' :
  textblob_polarity post = Ok p ->
  sentiment_branch p sc = Ok (lbl, sc') ->
  toxic_score_of tm post = Ok s ->
  toxicity_branch s tc = Ok (tox, tc') ->
  loop_body textblob_polarity tm post (res, sc, tc) w
  = (Ok (res ++ [(post, lbl, tox)], sc', tc'),
     mkWorld (history_file w) (trace w ++ calls post)).
Proof.
  intros Hp Hs Ht Hx. unfold loop_body, bind, emit, lift, ret. simpl.
  rewrite Hp, Hs. simpl. rewrite Ht, Hx. now rewrite <- app_assoc.
Qed.

(** Whatever happens in the loop body, the file is untouched. *)
Lemma loop_body_world (tm : classifier) (post : cell) (st : loop_state) (w : world) :
  exists t, snd (loop_body textblob_polarity tm post st w)
            = mkWorld (history_file w) (trace w ++ t)
            /\ existsb written t = false.
Proof.
  destruct st as [[res sc] tc].
  unfold loop_body, bind, emit, lift, ret. simpl.
  destruct (textblob_polarity post) as [p|e];
    [|exists [SentimentCall post]; split; reflexivity].
  destruct (sentiment_branch p sc) as [[lbl sc']|e];
    [|exists [SentimentCall post]; split; reflexivity].
  simpl.
  destruct (toxic_score_of tm post) as [s|e];
    [|exists (calls post); rewrite <- app_assoc; split; reflexivity].
  destruct (toxicity_branch s tc) as [[tox tc']|e];
    exists (calls post); rewrite <- app_assoc; split; reflexivity.
Qed.

Lemma for_posts_world (tm : classifier) (posts : list cell) :
  forall (st : loop_state) (w : world),
  exists t, snd (for_posts textblob_polarity tm posts st w)
            = mkWorld (history_file w) (trace w ++ t)
            /\ existsb written t = false.
Proof.
  induction posts as [|post rest IH]; intros st w; simpl.
  - exists []. rewrite app_nil_r, world_eta. split; reflexivity.
  - unfold bind.
    destruct (loop_body_world tm post st w) as (t1 & E1 & W1).
    destruct (loop_body textblob_polarity tm post st w) as [[st'|e] w1];
      simpl in E1; subst w1.
    + destruct (IH st' (mkWorld (history_file w) (trace w ++ t1)))
        as (t2 & E2 & W2).
      exists (t1 ++ t2). rewrite E2. simpl. rewrite app_assoc. split.
      * reflexivity.
      * rewrite existsb_app, W1, W2. reflexivity.
    + exists t1. split; [reflexivity | exact W1].
Qed.

(** A run of the loop that ends normally: what it returns and leaves. *)
Lemma for_posts_ok (tm : classifier) (posts : list cell) :
  forall res0 sc0 tc0 w res sc tc w',
  for_posts textblob_polarity tm posts (res0, sc0, tc0) w = (Ok (res, sc, tc), w') ->
  (exists rows, res = res0 ++ rows /\ Forall2 (analysed textblob_polarity tm) posts rows)
  /\ keys sc = keys sc0 /\ keys tc = keys tc0
  /\ total sc = (total sc0 + Z.of_nat (length posts))%Z
  /\ total tc = (total tc0 + Z.of_nat (length posts))%Z
  /\ w' = mkWorld (history_file w) (trace w ++ flat_map calls posts).
Proof.
  induction posts as [|post rest IH]; intros res0 sc0 tc0 w res sc tc w' H.
  - simpl in H. injection H as <- <- <- <-.
    split; [exists []; rewrite app_nil_r; split; [reflexivity | constructor]|].
    simpl. rewrite app_nil_r, world_eta. repeat split; lia.
  - cbn [for_posts] in H. unfold bind at 1 in H.
    destruct (loop_body textblob_polarity tm post (res0, sc0, tc0) w)
      as [[st1|e] w1] eqn:B; [|discriminate].
    apply loop_body_ok in B
      as (p & lbl & sc1 & s & tox & tc1 & Hp & Hs & Ht & Hx & -> & ->).
    apply IH in H as ((rows & -> & F) & Ks & Kt & Ts & Tt & ->).
    apply sentiment_branch_counts in Hs as Hs'. destruct Hs' as [Ks1 Ts1].
    apply toxicity_branch_counts in Hx as Hx'. destruct Hx' as [Kt1 Tt1].
    split; [|split; [|split; [|split; [|split]]]].
    + exists ((post, lbl, tox) :: rows). rewrite <- app_assoc. split; [reflexivity|].
      constructor; [|exact F].
      exists p, s, sc0, sc1, tc0, tc1. repeat split; assumption.
    + congruence.
    + congruence.
    + rewrite Ts, Ts1. simpl length. lia.
    + rewrite Tt, Tt1. simpl length. lia.
    + simpl. now rewrite <- app_assoc.
Qed.

(** With both scores available for every post the loop ends normally. *)
Lemma for_posts_total (tm : classifier) (posts : list cell) :
  (forall post, In post posts ->
     (exists p, textblob_polarity post = Ok p) /\
     (exists s, toxic_score_of tm post = Ok s)) ->
  forall res0 sc0 tc0 w,
  keys sc0 = keys sentiment_counts0 -> keys tc0 = keys toxic_counts0 ->
  exists res sc tc w',
    for_posts textblob_polarity tm posts (res0, sc0, tc0) w = (Ok (res, sc, tc), w').
Proof.
  induction posts as [|post rest IH]; intros Hall res0 sc0 tc0 w Ks Kt.
  - now exists res0, sc0, tc0, w.
  - destruct (Hall post (or_introl eq_refl)) as [[p Hp] [s Hs]].
    destruct (sentiment_branch_total p sc0 Ks) as (lbl & sc1 & B1).
    destruct (toxicity_branch_total s tc0 Kt) as (tox & tc1 & B2).
    cbn [for_posts]. unfold bind at 1.
    rewrite (loop_body_run tm post res0 sc0 tc0 w p lbl sc1 s tox tc1 Hp B1 Hs B2).
    apply IH.
    + intros q Hq. apply Hall. now right.
    + apply sentiment_branch_counts in B1 as [K _]. congruence.
    + apply toxicity_branch_counts in B2 as [K _]. congruence.
Qed.

(** One post without a toxicity score and the loop ends in an exception. *)
Lemma for_posts_raises (tm : classifier) (posts : list cell) (bad : cell) (e0 : exn) :
  In bad posts -> toxic_score_of tm bad = Raise e0 ->
  forall st w, exists e, fst (for_posts textblob_polarity tm posts st w) = Raise e.
Proof.
  intros Hin Hbad. induction posts as [|post rest IH]; intros st w; [easy|].
  cbn [for_posts]. unfold bind at 1.
  destruct (loop_body textblob_polarity tm post st w) as [[st1|e] w1] eqn:B.
  - destruct Hin as [->|Hin].
    + destruct st as [[res sc] tc].
      apply loop_body_ok in B as (p & lbl & sc1 & s & tox & tc1 & _ & _ & Ht & _).
      congruence.
    + apply (IH Hin).
  - now exists e.
Qed.

(** The input section reads widgets and at most shows a message. *)
Lemma choose_input_world (inp : inputs) (w : world) :
  exists t, snd (choose_input read_csv inp w) = mkWorld (history_file w) (trace w ++ t)
            /\ existsb pipeline_event t = false.
Proof.
  unfold choose_input, bind, emit, lift, ret. simpl.
  destruct (input_option inp).
  - destruct (analyze_clicked inp); [destruct (strip (user_input inp))|]; simpl.
    + eexists [_; _]. rewrite <- app_assoc. split; reflexivity.
    + eexists [_]. split; reflexivity.
    + eexists [_]. split; reflexivity.
  - destruct (uploaded_file inp) as [content|]; simpl.
    + destruct (read_csv content) as [df|e]; simpl.
      * destruct (negb (has_column df (lit "post"))); simpl.
        -- eexists [_; _]. rewrite <- app_assoc. split; reflexivity.
        -- eexists [_]. split; reflexivity.
      * eexists [_]. split; reflexivity.
    + eexists [_]. split; reflexivity.
Qed.

Lemma written_pipeline (t : list event) :
  existsb pipeline_event t = false -> existsb written t = false.
Proof.
  induction t as [|e t IH]; simpl; [reflexivity|].
  intro H. apply orb_false_iff in H as [H1 H2]. rewrite (IH H2).
  destruct e; simpl in *; congruence.
Qed.

Lemma filter_none {A} (f : A -> bool) (l : list A) :
  existsb f l = false -> filter f l = [].
Proof.
  induction l as [|x l IH]; simpl; [reflexivity|].
  intro H. apply orb_false_iff in H as [-> H]. now apply IH.
Qed.

Lemma run_analysis_raises (tm : classifier) (posts : list cell) (bad : cell)
    (e0 : exn) (w : world) :
  In bad posts -> toxic_score_of tm bad = Raise e0 ->
  exists e t,
    run_analysis textblob_polarity read_csv to_csv concat_realigned tm posts w
    = (Raise e, mkWorld (history_file w) (trace w ++ t))
    /\ existsb written t = false.
Proof.
  intros Hin Hbad.
  destruct (for_posts_raises tm posts bad e0 Hin Hbad
              ([], sentiment_counts0, toxic_counts0) w) as [e He].
  destruct (for_posts_world tm posts ([], sentiment_counts0, toxic_counts0) w)
    as (t & Hw & Ht).
  exists e, t. split; [|exact Ht].
  destruct posts as [|post rest]; [easy|].
  unfold run_analysis, bind.
  destruct (for_posts textblob_polarity tm (post :: rest)
              ([], sentiment_counts0, toxic_counts0) w) as [r w'].
  simpl in He, Hw. subst r w'. reflexivity.
Qed.

(** C8.  When the classifier fails on some post of the batch, or its
    output for that post has no category labelled ["toxic"], the analysis
    ends in an exception: no score is made up, the history file keeps its
    content and no write is attempted, on the analysis alone and on the
    whole run of the page.  When the model cannot be loaded the run ends in
    that exception before anything else happens. *)
Theorem classifier_failure_is_fatal (tm : classifier) (posts : list cell)
    (bad : cell) :
  In bad posts ->
  ((exists e, tm bad = Raise e) \/
   (exists out preds, tm bad = Ok out /\ index out 0 = Ok preds /\
      existsb (fun p => Str.eqb (label p) (lit "toxic")) preds = false)) ->
  (forall w, exists e t,
     run_analysis textblob_polarity read_csv to_csv concat_realigned tm posts w
     = (Raise e, mkWorld (history_file w) (trace w ++ t))
     /\ existsb written t = false)
  /\ (forall inp w, load_model = Ok tm ->
        fst (choose_input read_csv inp w) = Ok posts ->
        exists e t,
          script textblob_polarity load_model read_csv to_csv concat_realigned inp w
          = (Raise e, mkWorld (history_file w) (trace w ++ t))
          /\ existsb written t = false)
  /\ (forall e inp w, load_model = Raise e ->
        script textblob_polarity load_model read_csv to_csv concat_realigned inp w
        = (Raise e, w)).
Proof.
  intros Hin Hfail.
  assert (Hbad : exists e0, toxic_score_of tm bad = Raise e0).
  { unfold toxic_score_of.
    destruct Hfail as [[e He]|(out & preds & Ho & Hi & Hn)].
    - exists e. now rewrite He.
    - exists IndexError. rewrite Ho. simpl. rewrite Hi. simpl.
      now rewrite (filter_none _ _ Hn). }
  destruct Hbad as [e0 Hbad].
  split; [|split].
  - intro w. exact (run_analysis_raises tm posts bad e0 w Hin Hbad).
  - intros inp w Hm Hposts.
    destruct (choose_input_world inp w) as (t1 & Hw1 & Ht1).
    unfold script, tab1, bind, lift. rewrite Hm.
    destruct (choose_input read_csv inp w) as [r w1]. simpl in Hposts, Hw1.
    subst r w1.
    destruct (run_analysis_raises tm posts bad e0
                (mkWorld (history_file w) (trace w ++ t1)) Hin Hbad)
      as (e & t2 & -> & Ht2).
    exists e, (t1 ++ t2). simpl. rewrite app_assoc. split; [reflexivity|].
    rewrite existsb_app, (written_pipeline t1 Ht1), Ht2. reflexivity.
  - intros e inp w Hm. unfold script, bind, lift. now rewrite Hm.
Qed.

(** C10.  Each pass of the loop body adds one to one sentiment bucket and
    to one toxicity bucket and appends one row; after a run over [posts]
    the three sentiment counts add up to the number of posts, so do the two
    toxicity counts, and the batch has that many rows. *)
Theorem counts_match_posts (tm : classifier) :
  (forall post res0 sc0 tc0 w res1 sc1 tc1 w1,
     loop_body textblob_polarity tm post (res0, sc0, tc0) w
     = (Ok (res1, sc1, tc1), w1) ->
     (exists k, incr sc0 k = Ok sc1) /\ (exists k, incr tc0 k = Ok tc1) /\
     length res1 = S (length res0))
  /\
  (forall posts w results sc tc w',
     for_posts textblob_polarity tm posts ([], sentiment_counts0, toxic_counts0) w
     = (Ok (results, sc, tc), w') ->
     exists p n u t s,
       sc = [(lit "Positive", p); (lit "Negative", n); (lit "Neutral", u)] /\
       tc = [(lit "Toxic", t); (lit "Safe", s)] /\
       (p + n + u = Z.of_nat (length posts))%Z /\
       (t + s = Z.of_nat (length posts))%Z /\
       length results = length posts).
Proof.
  split.
  - intros post res0 sc0 tc0 w res1 sc1 tc1 w1 H.
    apply loop_body_ok in H
      as (p & lbl & sc' & s & tox & tc' & _ & Hs & _ & Hx & E & _).
    injection E as -> -> ->.
    split; [exact (sentiment_branch_incr _ _ _ _ Hs)|].
    split; [exact (toxicity_branch_incr _ _ _ _ Hx)|].
    rewrite length_app. simpl. lia.
  - intros posts w results sc tc w' H.
    apply for_posts_ok in H as ((rows & -> & F) & Ks & Kt & Ts & Tt & _).
    apply keys_three in Ks as (p & n & u & ->).
    apply keys_two in Kt as (t & s & ->).
    exists p, n, u, t, s. unfold total in Ts, Tt. simpl in Ts, Tt.
    repeat split; try lia.
    simpl. symmetry. exact (Forall2_length F).
Qed.

Lemma analysed_posts (tm : classifier) (posts : list cell)
    (rows : list (cell * pystr * pystr)) :
  Forall2 (analysed textblob_polarity tm) posts rows ->
  map (fun r => fst (fst r)) rows = posts.
Proof.
  induction 1 as [|post row posts rows H _ IH]; simpl; [reflexivity|].
  destruct H as (p & s & c1 & c1' & c2 & c2' & _ & _ & _ & _ & E).
  now rewrite E, IH.
Qed.

(** C5.  The loop takes the posts in the order given: the classifiers are
    called post by post in that order and the batch lists the posts in
    that same order, each with the labels of its own scores; the loop does
    end normally when every post has its two scores.  On the three posts
    with polarities 0.6, -0.5 and 0.0 the labels are Positive, Negative,
    Neutral in this order and each sentiment count is 1. *)
Theorem batch_keeps_input_order (tm : classifier) (posts : list cell) (w : world) :
  (forall results sc tc w',
     for_posts textblob_polarity tm posts ([], sentiment_counts0, toxic_counts0) w
     = (Ok (results, sc, tc), w') ->
     map (fun r => fst (fst r)) results = posts /\
     Forall2 (analysed textblob_polarity tm) posts results /\
     w' = mkWorld (history_file w) (trace w ++ flat_map calls posts))
  /\
  ((forall post, In post posts ->
      (exists p, textblob_polarity post = Ok p) /\
      (exists s, toxic_score_of tm post = Ok s)) ->
   exists results sc tc w',
     for_posts textblob_polarity tm posts ([], sentiment_counts0, toxic_counts0) w
     = (Ok (results, sc, tc), w'))
  /\
  (textblob_polarity (CStr Sample.love) = Ok Sample.f0_6 ->
   textblob_polarity (CStr Sample.hate) = Ok (neg f0_5) ->
   textblob_polarity (CStr Sample.rain) = Ok Sample.f0_0 ->
   (forall post, In post Sample.three_posts ->
      exists s, toxic_score_of tm post = Ok s) ->
   exists results tc w',
     for_posts textblob_polarity tm Sample.three_posts
       ([], sentiment_counts0, toxic_counts0) w
     = (Ok (results,
            [(lit "Positive", 1%Z); (lit "Negative", 1%Z); (lit "Neutral", 1%Z)],
            tc), w')
     /\ map (fun r => snd (fst r)) results
        = [lit "Positive"; lit "Negative"; lit "Neutral"]
     /\ map (fun r => fst (fst r)) results = Sample.three_posts).
Proof.
  split; [|split].
  - intros results sc tc w' H.
    apply for_posts_ok in H as ((rows & -> & F) & _ & _ & _ & _ & ->).
    simpl. split; [exact (analysed_posts _ _ _ F)|]. split; [exact F | reflexivity].
  - intro Hall. now apply for_posts_total.
  - intros H1 H2 H3 Htox.
    destruct (Htox (CStr Sample.love)) as [s1 T1]; [simpl; tauto|].
    destruct (Htox (CStr Sample.hate)) as [s2 T2]; [simpl; tauto|].
    destruct (Htox (CStr Sample.rain)) as [s3 T3]; [simpl; tauto|].
    destruct (toxicity_branch_total s1 toxic_counts0 eq_refl) as (x1 & tc1 & B1).
    assert (K1 : keys tc1 = keys toxic_counts0)
      by (apply toxicity_branch_counts in B1 as [K _]; exact K).
    destruct (toxicity_branch_total s2 tc1 K1) as (x2 & tc2 & B2).
    assert (K2 : keys tc2 = keys toxic_counts0)
      by (apply toxicity_branch_counts in B2 as [K _]; congruence).
    destruct (toxicity_branch_total s3 tc2 K2) as (x3 & tc3 & B3).
    pose (c1 := [(lit "Positive", 1%Z); (lit "Negative", 0%Z); (lit "Neutral", 0%Z)]).
    pose (c2 := [(lit "Positive", 1%Z); (lit "Negative", 1%Z); (lit "Neutral", 0%Z)]).
    pose (c3 := [(lit "Positive", 1%Z); (lit "Negative", 1%Z); (lit "Neutral", 1%Z)]).
    assert (S1 : sentiment_branch Sample.f0_6 sentiment_counts0
                 = Ok (lit "Positive", c1)) by reflexivity.
    assert (S2 : sentiment_branch (neg f0_5) c1 = Ok (lit "Negative", c2))
      by reflexivity.
    assert (S3 : sentiment_branch Sample.f0_0 c2 = Ok (lit "Neutral", c3))
      by reflexivity.
    unfold Sample.three_posts. cbn [for_posts]. unfold bind.
    rewrite (loop_body_run tm _ _ _ _ _ _ _ _ _ _ _ H1 S1 T1 B1).
    rewrite (loop_body_run tm _ _ _ _ _ _ _ _ _ _ _ H2 S2 T2 B2).
    rewrite (loop_body_run tm _ _ _ _ _ _ _ _ _ _ _ H3 S3 T3 B3).
    eexists _, tc3, _. split; [reflexivity|]. split; reflexivity.
Qed.

(** What lines 96-100 do with the text area.  The text is trimmed as a
    whole, then split at newlines.  A blank text gives no post: the tab
    shows a warning and nothing is classified or written.  Otherwise the
    posts are the lines of the trimmed text (joining them gives the trimmed
    text back), and the first and the last one are not blank.  No line is
    looked at on its own. *)
Theorem text_entry_trims_whole_input (tm : classifier) (inp : inputs) (w : world) :
  input_option inp = EnterText ->
  analyze_clicked inp = true ->
  let text := strip (user_input inp) in
  let heading := Subheader (lit "📥 Choose Input Method") in
  match text with
  | [] =>
    tab1 textblob_polarity read_csv to_csv concat_realigned tm inp w
    = (Ok tt,
       mkWorld (history_file w)
         (trace w ++ [heading; Warning (lit "⚠️ Please enter some posts to analyze.")]))
  | _ :: _ =>
    choose_input read_csv inp w
    = (Ok (map CStr (split newline text)),
       mkWorld (history_file w) (trace w ++ [heading]))
    /\ join newline (split newline text) = text
    /\ strip (hd [] (split newline text)) <> []
    /\ strip (last (split newline text) []) <> []
  end.
Proof.
  intros Hopt Hclick text heading.
  destruct text as [|c r] eqn:E; unfold text in E.
  - unfold tab1, choose_input, bind, emit, ret. rewrite Hopt, Hclick, E. simpl.
    now rewrite <- app_assoc.
  - split; [|split; [|split]].
    + unfold choose_input, bind, emit, ret. rewrite Hopt, Hclick, E. reflexivity.
    + apply join_split.
    + destruct (strip_ends (user_input inp) c r) as [Hc _].
      specialize (Hc E).
      destruct (split_head newline c r) as [l Hl].
      { intros ->. discriminate Hc. }
      rewrite Hl. apply (strip_not_blank (c :: l) c); [now left | exact Hc].
    + destruct (exists_last (l := c :: r) ltac:(discriminate)) as (r' & c' & E').
      rewrite E'. rewrite E' in E.
      destruct (strip_ends (user_input inp) c' r') as [_ Hc].
      specialize (Hc E).
      destruct (split_last newline c' r') as [l Hl].
      { intros ->. discriminate Hc. }
      rewrite Hl. apply (strip_not_blank (l ++ [c']) c'); [|exact Hc].
      apply in_or_app. right. now left.
Qed.

(** *** Export

    What the script itself fixes about the export: the download carries
    [to_csv] of the table just loaded, the very bytes [save_history] would
    write for it, and loading a file with these bytes is [read_csv] of
    them.  Whether that gives the table back is a property of the CSV
    writer and reader alone. *)
Lemma export_then_load (w : world) (h : DataFrame) :
  load_history read_csv w = (Ok h, w) ->
  empty h = false ->
  tab2 read_csv to_csv w
  = (Ok tt,
     mkWorld (history_file w)
       (trace w ++ [Subheader (lit "📜 Full Analysis History");
                    ShowDataframe h;
                    DownloadButton (lit "⬇️ Download Full History as CSV") (to_csv h)
                      (lit "cyberbro_full_history.csv") (lit "text/csv")]))
  /\ forall t,
       load_history read_csv (mkWorld (Some (to_csv h)) t)
       = (read_csv (to_csv h), mkWorld (Some (to_csv h)) t).
Proof.
  intros Hload Hne. split; [|reflexivity].
  unfold tab2, bind, emit.
  set (w1 := mkWorld (history_file w) (trace w ++ _)).
  assert (H1 : load_history read_csv w1 = (Ok h, w1)).
  { rewrite load_history_run in Hload. rewrite load_history_run.
    injection Hload as Hload. unfold w1. simpl. now rewrite Hload. }
  rewrite H1, Hne. unfold w1. simpl. now rewrite <- !app_assoc.
Qed.

(** ** Beyond the listed claims: failure, composition, what is never done *)

Lemma save_history_run (df_new : DataFrame) (w : world) :
  save_history read_csv to_csv concat_realigned df_new w
  = match fst (load_history read_csv w) with
    | Raise e => (Raise e, w)
    | Ok df_history =>
      match pd_concat concat_realigned df_history df_new with
      | Raise e => (Raise e, w)
      | Ok df_all =>
        (Ok df_all, mkWorld (Some (to_csv df_all)) (trace w ++ [WriteCsv df_all]))
      end
    end.
Proof.
  unfold save_history, bind, lift. rewrite load_history_run. simpl.
  destruct (match history_file w with Some c => read_csv c | None => _ end)
    as [h|e]; [|reflexivity].
  destruct (pd_concat concat_realigned h df_new); reflexivity.
Qed.

Lemma tab2_world (w : world) :
  exists t, snd (tab2 read_csv to_csv w) = mkWorld (history_file w) (trace w ++ t)
            /\ existsb pipeline_event t = false.
Proof.
  unfold tab2, bind, emit. rewrite load_history_run. simpl.
  destruct (match history_file w with Some c => read_csv c | None => _ end)
    as [h|e].
  - destruct (negb (empty h)); simpl.
    + eexists [_; _; _]. split.
      { apply f_equal. repeat (rewrite <- app_assoc; simpl). reflexivity. }
      reflexivity.
    + eexists [_; _]. split.
      { apply f_equal. repeat (rewrite <- app_assoc; simpl). reflexivity. }
      reflexivity.
  - simpl. eexists [_]. split; reflexivity.
Qed.

(** The analysis either writes nothing, or it writes once, ends normally
    and calls no classifier afterwards. *)
Lemma run_analysis_world (tm : classifier) (posts : list cell) (w : world) :
  let out := run_analysis textblob_polarity read_csv to_csv concat_realigned
               tm posts w in
  (exists t, snd out = mkWorld (history_file w) (trace w ++ t)
             /\ existsb written t = false)
  \/ (exists df t1 t2,
        out = (Ok tt, mkWorld (Some (to_csv df))
                        (trace w ++ t1 ++ WriteCsv df :: t2))
        /\ existsb written t1 = false /\ existsb pipeline_event t2 = false).
Proof.
  intro out.
  assert (Hout : out = run_analysis textblob_polarity read_csv to_csv
                         concat_realigned tm posts w) by reflexivity.
  clearbody out. destruct posts as [|post rest].
  { left. exists []. rewrite Hout. simpl. rewrite app_nil_r, world_eta.
    split; reflexivity. }
  set (posts := post :: rest) in *. unfold run_analysis in Hout.
  change (match posts with [] => ret tt | _ :: _ => ?k end) with k in Hout.
  unfold bind at 1 in Hout.
  destruct (for_posts_world tm posts
              ([], sentiment_counts0, toxic_counts0) w) as (t1 & E1 & W1).
  destruct (for_posts textblob_polarity tm posts
              ([], sentiment_counts0, toxic_counts0) w) as [[[[res sc] tc]|e] w1];
    simpl in E1; subst w1;
    [|left; exists t1; rewrite Hout; split; [reflexivity | exact W1]].
  unfold bind at 1 in Hout.
  rewrite save_history_run, load_history_run in Hout. cbn [fst history_file] in Hout.
  destruct (match history_file w with Some c => read_csv c | None => _ end)
    as [h|e]; [|left; exists t1; rewrite Hout; split; [reflexivity | exact W1]].
  destruct (pd_concat concat_realigned h (results_frame res)) as [df_all|e];
    [|left; exists t1; rewrite Hout; split; [reflexivity | exact W1]].
  unfold bind, emit in Hout. simpl in Hout.
  repeat (rewrite <- app_assoc in Hout; simpl in Hout).
  right. exists df_all, t1. eexists. rewrite Hout.
  split; [reflexivity|]. split; [exact W1 | reflexivity].
Qed.

(** X1.  The Analyzer tab is all or nothing: whenever it ends in an
    exception, whatever the cause (unreadable upload, a classifier, an
    unreadable history file, the concatenation), the history file has the
    content it had and no write took place. *)
Theorem tab1_all_or_nothing (tm : classifier) (inp : inputs) (w w' : world) (e : exn) :
  tab1 textblob_polarity read_csv to_csv concat_realigned tm inp w = (Raise e, w') ->
  history_file w' = history_file w
  /\ exists t, trace w' = trace w ++ t /\ existsb written t = false.
Proof.
  unfold tab1, bind. intro H.
  destruct (choose_input_world inp w) as (t0 & E0 & P0).
  destruct (choose_input read_csv inp w) as [[posts|e0] w0]; simpl in E0; subst w0.
  - destruct (run_analysis_world tm posts (mkWorld (history_file w) (trace w ++ t0)))
      as [(t & E & W)|(df & t1 & t2 & E & _)]; cbv zeta in E.
    + rewrite H in E. simpl in E. subst w'. simpl. split; [reflexivity|].
      exists (t0 ++ t). rewrite app_assoc. split; [reflexivity|].
      rewrite existsb_app, (written_pipeline t0 P0), W. reflexivity.
    + rewrite H in E. discriminate E.
  - injection H as _ <-. simpl. split; [reflexivity|].
    exists t0. split; [reflexivity | exact (written_pipeline t0 P0)].
Qed.

(** X2.  One run of the page writes the history file at most once.  Either
    nothing is written and the file is as it was, or exactly one table is
    written, the file holds its CSV, the Analyzer tab ended normally and no
    classifier is called after the write.  So the file is never removed and
    never written twice. *)
Theorem script_writes_at_most_once (inp : inputs) (w : world) :
  let out := script textblob_polarity load_model read_csv to_csv concat_realigned
               inp w in
  (exists t, snd out = mkWorld (history_file w) (trace w ++ t)
             /\ existsb written t = false)
  \/ (exists df t1 t2,
        snd out = mkWorld (Some (to_csv df)) (trace w ++ t1 ++ WriteCsv df :: t2)
        /\ existsb written t1 = false /\ existsb pipeline_event t2 = false).
Proof.
  intro out.
  assert (Hout : out = script textblob_polarity load_model read_csv to_csv
                         concat_realigned inp w) by reflexivity.
  clearbody out. unfold script, tab1, bind, lift in Hout.
  destruct load_model as [tm|e].
  2:{ left. exists []. rewrite Hout. simpl. rewrite app_nil_r, world_eta.
      split; reflexivity. }
  destruct (choose_input_world inp w) as (t0 & E0 & P0).
  destruct (choose_input read_csv inp w) as [[posts|e0] w0]; simpl in E0; subst w0;
    cbv beta iota in Hout.
  2:{ left. exists t0. rewrite Hout.
      split; [reflexivity | exact (written_pipeline t0 P0)]. }
  set (w0 := mkWorld (history_file w) (trace w ++ t0)) in *.
  destruct (run_analysis_world tm posts w0)
    as [(t & E & W)|(df & t1 & t2 & E & W1 & P2)]; cbv zeta in E.
  - destruct (run_analysis textblob_polarity read_csv to_csv concat_realigned
                tm posts w0) as [[[]|e1] w1]; simpl in E; subst w1;
      cbv beta iota in Hout.
    + destruct (tab2_world (mkWorld (history_file w) (trace w ++ t0 ++ t)))
        as (t3 & E3 & P3).
      left. exists (t0 ++ t ++ t3). rewrite Hout. unfold w0. simpl.
      rewrite <- app_assoc, E3. simpl. rewrite <- !app_assoc.
      split; [reflexivity|].
      rewrite !existsb_app, (written_pipeline t0 P0), W, (written_pipeline t3 P3).
      reflexivity.
    + left. exists (t0 ++ t). rewrite Hout. unfold w0. simpl. rewrite app_assoc.
      split; [reflexivity|].
      rewrite existsb_app, (written_pipeline t0 P0), W. reflexivity.
  - rewrite E in Hout. cbv beta iota in Hout.
    destruct (tab2_world (mkWorld (Some (to_csv df))
                            (trace w0 ++ t1 ++ WriteCsv df :: t2)))
      as (t3 & E3 & P3).
    right. exists df, (t0 ++ t1), (t2 ++ t3). rewrite Hout, E3. unfold w0. simpl.
    split; [|split].
    + f_equal. rewrite <- !app_assoc. reflexivity.
    + rewrite existsb_app, (written_pipeline t0 P0), W1. reflexivity.
    + rewrite existsb_app, P2, P3. reflexivity.
Qed.

(** What follows the loop, once it has ended normally. *)
Lemma run_analysis_after_loop (tm : classifier) (posts : list cell) (w w1 : world)
    (results : list (cell * pystr * pystr)) (sc tc : pydict) :
  posts <> [] ->
  for_posts textblob_polarity tm posts ([], sentiment_counts0, toxic_counts0) w
  = (Ok (results, sc, tc), w1) ->
  run_analysis textblob_polarity read_csv to_csv concat_realigned tm posts w
  = match save_history read_csv to_csv concat_realigned (results_frame results) w1 with
    | (Ok _, w2) =>
      (Ok tt,
       mkWorld (history_file w2)
         (trace w2 ++
          [Subheader (lit "📊 Analysis Results");
           ShowDataframe (results_frame results);
           Subheader (lit "📈 Sentiment Distribution");
           PlotlyChart (Pie (keys sc) (values sc) (lit "Sentiment Breakdown"));
           Subheader (lit "⚠️ Toxic vs Safe Posts");
           PlotlyChart (Bar (keys tc) (values tc))]))
    | (Raise e, w2) => (Raise e, w2)
    end.
Proof.
  intros Hne Hloop. destruct posts as [|post rest]; [contradiction|].
  set (posts := post :: rest) in *. unfold run_analysis.
  change (match posts with [] => ret tt | _ :: _ => ?k end) with k.
  unfold bind at 1. rewrite Hloop. unfold bind at 1.
  destruct (save_history read_csv to_csv concat_realigned (results_frame results) w1)
    as [[df|e] w2]; [|reflexivity].
  unfold bind, emit. simpl. repeat (rewrite <- app_assoc; simpl). reflexivity.
Qed.

(** X3.  A run of the analysis in which every post gets its two scores
    and the stored history loads with the three history columns: every
    classifier call comes first, post by post; then the history file is
    rewritten once, with the old rows followed by one row per post; only
    then the batch and the two charts are shown, the charts listing the
    buckets in the fixed order Positive, Negative, Neutral and Toxic,
    Safe. *)
Theorem run_analysis_success (tm : classifier) (posts : list cell) (w : world)
    (h : DataFrame) :
  posts <> [] ->
  (forall post, In post posts ->
     (exists p, textblob_polarity post = Ok p) /\
     (exists s, toxic_score_of tm post = Ok s)) ->
  load_history read_csv w = (Ok h, w) ->
  columns h = history_columns ->
  exists results sc tc,
    Forall2 (analysed textblob_polarity tm) posts results /\
    total sc = Z.of_nat (length posts) /\ total tc = Z.of_nat (length posts) /\
    let results_df := results_frame results in
    let df_all := mkDF history_columns (rows h ++ rows results_df) in
    run_analysis textblob_polarity read_csv to_csv concat_realigned tm posts w
    = (Ok tt,
       mkWorld (Some (to_csv df_all))
         (trace w ++ flat_map calls posts ++
          [WriteCsv df_all;
           Subheader (lit "📊 Analysis Results");
           ShowDataframe results_df;
           Subheader (lit "📈 Sentiment Distribution");
           PlotlyChart (Pie [lit "Positive"; lit "Negative"; lit "Neutral"]
                            (values sc) (lit "Sentiment Breakdown"));
           Subheader (lit "⚠️ Toxic vs Safe Posts");
           PlotlyChart (Bar [lit "Toxic"; lit "Safe"] (values tc))])).
Proof.
  intros Hne Hall Hload Hcols.
  destruct (for_posts_total tm posts Hall [] sentiment_counts0 toxic_counts0 w
              eq_refl eq_refl) as (results & sc & tc & w1 & Hloop).
  pose proof (for_posts_ok tm posts _ _ _ _ _ _ _ _ Hloop)
    as ((rows & Er & F) & Ks & Kt & Ts & Tt & ->).
  simpl in Er. subst rows.
  exists results, sc, tc. split; [exact F|]. split; [exact Ts|]. split; [exact Tt|].
  intros results_df df_all.
  rewrite (run_analysis_after_loop tm posts w _ results sc tc Hne Hloop).
  rewrite save_history_run, load_history_run. cbn [fst history_file].
  rewrite load_history_run in Hload. injection Hload as Hload. rewrite Hload.
  unfold pd_concat. rewrite Hcols. cbn [columns results_frame].
  rewrite columns_eqb_refl. cbn [history_file trace].
  rewrite Ks, Kt. rewrite <- !app_assoc. reflexivity.
Qed.

(** X4.  When the history file exists but [pd.read_csv] raises on it, the
    analysis still calls the classifiers for every post, then ends in that
    exception: the batch is neither saved nor shown, and the file is left
    as it was. *)
Theorem unreadable_history_loses_batch (tm : classifier) (posts : list cell)
    (w : world) (content : bytes) (e : exn) :
  posts <> [] ->
  (forall post, In post posts ->
     (exists p, textblob_polarity post = Ok p) /\
     (exists s, toxic_score_of tm post = Ok s)) ->
  history_file w = Some content ->
  read_csv content = Raise e ->
  run_analysis textblob_polarity read_csv to_csv concat_realigned tm posts w
  = (Raise e, mkWorld (Some content) (trace w ++ flat_map calls posts)).
Proof.
  intros Hne Hall Hfile Hread.
  destruct (for_posts_total tm posts Hall [] sentiment_counts0 toxic_counts0 w
              eq_refl eq_refl) as (results & sc & tc & w1 & Hloop).
  pose proof (for_posts_ok tm posts _ _ _ _ _ _ _ _ Hloop)
    as (_ & _ & _ & _ & _ & ->).
  rewrite (run_analysis_after_loop tm posts w _ results sc tc Hne Hloop).
  rewrite save_history_run, load_history_run. cbn [fst history_file].
  rewrite Hfile, Hread. reflexivity.
Qed.

(** *** Counts against rows *)

Lemma sentiment_branch_step (p : float) (a b c : Z) (lbl : pystr) (sc' : pydict) :
  sentiment_branch p
    [(lit "Positive", a); (lit "Negative", b); (lit "Neutral", c)] = Ok (lbl, sc') ->
  (lbl = lit "Positive" /\
   sc' = [(lit "Positive", a + 1); (lit "Negative", b); (lit "Neutral", c)]%Z)
  \/ (lbl = lit "Negative" /\
      sc' = [(lit "Positive", a); (lit "Negative", b + 1); (lit "Neutral", c)]%Z)
  \/ (lbl = lit "Neutral" /\
      sc' = [(lit "Positive", a); (lit "Negative", b); (lit "Neutral", c + 1)]%Z).
Proof.
  unfold sentiment_branch.
  destruct (gt p f0_2); [|destruct (lt p (neg f0_2))]; intro H;
    injection H as <- <-; [left | right; left | right; right]; split; reflexivity.
Qed.

Lemma toxicity_branch_step (s : float) (x y : Z) (tox : pystr) (tc' : pydict) :
  toxicity_branch s [(lit "Toxic", x); (lit "Safe", y)] = Ok (tox, tc') ->
  (tox = lit "⚠️ Toxic (" ++ format_2f s ++ lit ")" /\
   tc' = [(lit "Toxic", x + 1); (lit "Safe", y)]%Z)
  \/ (tox = lit "✅ Safe (" ++ format_2f s ++ lit ")" /\
      tc' = [(lit "Toxic", x); (lit "Safe", y + 1)]%Z).
Proof.
  unfold toxicity_branch.
  destruct (gt s f0_5); intro H; injection H as <- <-; [left | right];
    split; reflexivity.
Qed.

Lemma labelled_cons (l : pystr) (r : cell * pystr * pystr)
    (rows : list (cell * pystr * pystr)) :
  labelled l (r :: rows)
  = ((if Str.eqb (snd (fst r)) l then 1 else 0) + labelled l rows)%Z.
Proof.
  unfold labelled. simpl. destruct (Str.eqb (snd (fst r)) l); simpl length; lia.
Qed.

Lemma flagged_cons (prefix : pystr) (r : cell * pystr * pystr)
    (rows : list (cell * pystr * pystr)) :
  flagged prefix (r :: rows)
  = ((if starts_with prefix (snd r) then 1 else 0) + flagged prefix rows)%Z.
Proof.
  unfold flagged. simpl. destruct (starts_with prefix (snd r)); simpl length; lia.
Qed.

Lemma for_posts_buckets (tm : classifier) (posts : list cell) :
  forall res0 a b c x y w res sc tc w',
  for_posts textblob_polarity tm posts
    (res0, [(lit "Positive", a); (lit "Negative", b); (lit "Neutral", c)],
     [(lit "Toxic", x); (lit "Safe", y)]) w = (Ok (res, sc, tc), w') ->
  exists rows,
    res = res0 ++ rows /\
    sc = [(lit "Positive", a + labelled (lit "Positive") rows);
          (lit "Negative", b + labelled (lit "Negative") rows);
          (lit "Neutral", c + labelled (lit "Neutral") rows)]%Z /\
    tc = [(lit "Toxic", x + flagged (lit "⚠️ Toxic (") rows);
          (lit "Safe", y + flagged (lit "✅ Safe (") rows)]%Z.
Proof.
  induction posts as [|post rest IH]; intros res0 a b c x y w res sc tc w' H.
  - simpl in H. injection H as <- <- <- _. exists []. rewrite app_nil_r.
    unfold labelled, flagged. simpl. rewrite !Z.add_0_r. repeat split.
  - cbn [for_posts] in H. unfold bind at 1 in H.
    destruct (loop_body textblob_polarity tm post _ w) as [[st1|e] w1] eqn:B;
      [|discriminate].
    apply loop_body_ok in B
      as (p & lbl & sc1 & s & tox & tc1 & _ & Hs & _ & Hx & -> & _).
    apply sentiment_branch_step in Hs. apply toxicity_branch_step in Hx.
    destruct Hs as [[-> ->]|[[-> ->]|[-> ->]]]; destruct Hx as [[-> ->]|[-> ->]];
      apply IH in H as (rows & -> & -> & ->);
      eexists (_ :: rows); rewrite <- app_assoc;
      (split; [reflexivity|]); rewrite !labelled_cons, !flagged_cons;
      cbn [fst snd];
      repeat match goal with
        | |- context [Str.eqb ?u ?v] =>
          let r := eval vm_compute in (Str.eqb u v) in change (Str.eqb u v) with r
        end;
      repeat match goal with
        | |- context [starts_with ?u ?v] =>
          first [change (starts_with u v) with true
                | change (starts_with u v) with false]
        end;
      cbv iota; split; repeat (f_equal; try lia).
Qed.

(** X5.  After the loop every bucket holds the number of rows of the
    batch that carry its label: the three sentiment counts are the numbers
    of rows labelled Positive, Negative and Neutral, and the Toxic and
    Safe counts are the numbers of rows whose toxicity label starts with
    the toxic and with the safe prefix.  The charts therefore agree with
    the table shown above them. *)
Theorem counts_agree_with_rows (tm : classifier) (posts : list cell) (w w' : world)
    (results : list (cell * pystr * pystr)) (sc tc : pydict) :
  for_posts textblob_polarity tm posts ([], sentiment_counts0, toxic_counts0) w
  = (Ok (results, sc, tc), w') ->
  sc = [(lit "Positive", labelled (lit "Positive") results);
        (lit "Negative", labelled (lit "Negative") results);
        (lit "Neutral", labelled (lit "Neutral") results)]
  /\ tc = [(lit "Toxic", flagged (lit "⚠️ Toxic (") results);
           (lit "Safe", flagged (lit "✅ Safe (") results)].
Proof.
  intro H. apply for_posts_buckets in H as (rows & E & -> & ->).
  simpl in E. subst rows. split; reflexivity.
Qed.

(** *** The threshold against the printed score *)

Section Printed.

Local Open Scope Z_scope.

Lemma round_half_even_ge (num den k : Z) :
  0 < den -> k * den <= num -> k <= round_half_even num den.
Proof.
  intros Hd Hk. unfold round_half_even.
  pose proof (Z.div_mod num den ltac:(lia)) as E.
  pose proof (Z.mod_pos_bound num den Hd) as B.
  set (q := num / den) in *. set (r := num mod den) in *.
  assert (k <= q) by nia.
  destruct (2 * r ?= den); [destruct (Z.even q)| |]; lia.
Qed.

Lemma round_half_even_le (num den k : Z) :
  0 < den -> num <= k * den -> round_half_even num den <= k.
Proof.
  intros Hd Hk. unfold round_half_even.
  pose proof (Z.div_mod num den ltac:(lia)) as E.
  pose proof (Z.mod_pos_bound num den Hd) as B.
  set (q := num / den) in *. set (r := num mod den) in *.
  destruct (Z.compare_spec (2 * r) den) as [H|H|H].
  - assert (q < k) by nia. destruct (Z.even q); lia.
  - nia.
  - assert (q < k) by nia. lia.
Qed.

(** 0.5 lies [2^p / 2] units of [2^-p] above zero: a finite positive
    [m * 2^-p] is above it exactly when [2^p < 2 * m]. *)
Lemma above_half_iff (m p : positive) :
  bounded 53 1024 m (Zneg p) = true ->
  magnitude 4503599627370496 (-53) < magnitude m (Zneg p) <-> 2 ^ Zpos p < 2 * Zpos m.
Proof.
  intro V. apply bounded_facts in V as (L & _). unfold magnitude.
  change (-53 + 1074) with 1021.
  assert (A : 0 < 2 ^ (Zneg p + 1074)) by (apply Z.pow_pos_nonneg; lia).
  assert (B : 0 < 2 ^ Zpos p) by (apply Z.pow_pos_nonneg; lia).
  assert (P : 2 ^ (Zneg p + 1074) * 2 ^ Zpos p = 2 * (4503599627370496 * 2 ^ 1021)).
  { rewrite <- Z.pow_add_r by lia.
    replace (Zneg p + 1074 + Zpos p) with 1074 by lia.
    change 4503599627370496 with (2 ^ 52). rewrite <- Z.pow_add_r by lia.
    change (52 + 1021) with 1073. change 1074 with (Z.succ 1073).
    now rewrite Z.pow_succ_r by lia. }
  set (a := 2 ^ (Zneg p + 1074)) in *. set (b := 2 ^ Zpos p) in *.
  set (c := 4503599627370496 * 2 ^ 1021) in *.
  split; intro H; nia.
Qed.

(** X6.  The printed score never contradicts the label.  For a finite
    binary64 score, a toxic label shows at least 0.50 (the score is
    positive and rounds to 50 hundredths or more), and a safe label on a
    score that is not negative shows at most 0.50. *)
Theorem printed_score_agrees_with_label (s : float) (sg : bool) (m : positive) (e : Z) :
  is_float64 s -> s = S754_finite sg m e ->
  (gt s f0_5 = true ->
     exists h, 50 <= h /\
       rmap fst (toxicity_branch s toxic_counts0)
       = Ok (lit "⚠️ Toxic (" ++ fixed2 h ++ lit ")"))
  /\ (gt s f0_5 = false -> sg = false ->
        exists h, 0 <= h <= 50 /\
          rmap fst (toxicity_branch s toxic_counts0)
          = Ok (lit "✅ Safe (" ++ fixed2 h ++ lit ")")).
Proof.
  intros V ->.
  assert (V5 : is_float64 f0_5) by reflexivity.
  pose proof (gt_exact (S754_finite sg m e) f0_5 _ _ V V5 eq_refl eq_refl) as G.
  cbn [cond_Zopp] in G.
  pose proof (magnitude_pos m e V) as Pm.
  assert (P5 : 0 < magnitude 4503599627370496 (-53)) by (now apply magnitude_pos).
  unfold is_float64 in V. cbn [valid_binary] in V.
  split.
  - intro Hgt. apply G in Hgt.
    destruct sg; cbn [cond_Zopp] in Hgt; [lia|].
    exists (hundredths m e). split.
    + destruct e as [|p|p]; cbn [hundredths].
      * lia.
      * assert (0 < 2 ^ Zpos p) by (apply Z.pow_pos_nonneg; lia). nia.
      * apply above_half_iff in Hgt; [|exact V].
        apply round_half_even_ge; [apply Z.pow_pos_nonneg|]; lia.
    + unfold toxicity_branch. apply G in Hgt. rewrite Hgt. reflexivity.
  - intros Hle ->. cbn [cond_Zopp] in G.
    assert (N : ~ magnitude 4503599627370496 (-53) < magnitude m e).
    { intro H. apply G in H. congruence. }
    exists (hundredths m e). split.
    + destruct e as [|p|p]; cbn [hundredths].
      * exfalso. apply N. unfold magnitude. change (-53 + 1074) with 1021.
        change (0 + 1074) with (Z.succ (52 + 1021)).
        rewrite Z.pow_succ_r, Z.pow_add_r by lia. change (2 ^ 52) with 4503599627370496.
        assert (0 < 2 ^ 1021) by (apply Z.pow_pos_nonneg; lia). nia.
      * exfalso. apply N. unfold magnitude. change (-53 + 1074) with 1021.
        replace (Zpos p + 1074) with (Z.succ (52 + 1021) + Zpos p) by lia.
        rewrite Z.pow_add_r, Z.pow_succ_r, Z.pow_add_r by lia.
        change (2 ^ 52) with 4503599627370496.
        assert (0 < 2 ^ 1021) by (apply Z.pow_pos_nonneg; lia).
        assert (1 <= 2 ^ Zpos p) by (apply Z.lt_pred_le, Z.pow_pos_nonneg; lia).
        nia.
      * assert (D : 0 < 2 ^ Zpos p) by (apply Z.pow_pos_nonneg; lia).
        split.
        -- apply (round_half_even_ge (Zpos m * 100) (2 ^ Zpos p) 0); lia.
        -- apply round_half_even_le; [exact D|].
           assert (~ 2 ^ Zpos p < 2 * Zpos m)
             by (intro H; apply N; now apply above_half_iff).
           lia.
    + unfold toxicity_branch. rewrite Hle. reflexivity.
Qed.

End Printed.

(** *** Saving twice, uploads, lines, an empty history *)

(** X7.  Two saves in a row accumulate: if the table written by the first
    save is read back unchanged, the second save returns and writes the
    old rows, then the rows of the first batch, then those of the second,
    and the file has been written exactly twice. *)
Theorem save_history_accumulates (w : world) (h b1 b2 : DataFrame) :
  load_history read_csv w = (Ok h, w) ->
  columns h = history_columns ->
  columns b1 = history_columns ->
  columns b2 = history_columns ->
  let t1 := mkDF history_columns (rows h ++ rows b1) in
  let t2 := mkDF history_columns (rows h ++ rows b1 ++ rows b2) in
  read_csv (to_csv t1) = Ok t1 ->
  exists w1,
    save_history read_csv to_csv concat_realigned b1 w = (Ok t1, w1)
    /\ save_history read_csv to_csv concat_realigned b2 w1
       = (Ok t2, mkWorld (Some (to_csv t2)) (trace w ++ [WriteCsv t1; WriteCsv t2])).
Proof.
  intros Hload Hh H1 H2 t1 t2 Hrt.
  eexists. split.
  - rewrite save_history_run, Hload. cbn [fst]. unfold pd_concat.
    rewrite Hh, H1, columns_eqb_refl. reflexivity.
  - rewrite save_history_run, load_history_run. cbn [fst history_file].
    fold t1. rewrite Hrt. unfold pd_concat. cbn [columns t1]. rewrite H2.
    rewrite columns_eqb_refl. cbn [rows t1 trace].
    unfold t2. rewrite <- !app_assoc. reflexivity.
Qed.

(** X8.  From an upload with a [post] column the posts are the cells of
    that column that are not missing, in row order: none of them is
    missing and none is added.  When every cell is missing the tab shows
    its heading only, no message, and nothing is analysed. *)
Theorem upload_posts_skip_missing (tm : classifier) (inp : inputs) (w : world)
    (content : bytes) (df : DataFrame) :
  input_option inp = UploadCSV ->
  uploaded_file inp = Some content ->
  read_csv content = Ok df ->
  has_column df (lit "post") = true ->
  let heading := Subheader (lit "📥 Choose Input Method") in
  let posts := dropna (column df (lit "post")) in
  choose_input read_csv inp w
  = (Ok posts, mkWorld (history_file w) (trace w ++ [heading]))
  /\ Forall (fun c => isna c = false) posts
  /\ (forall c, In c (column df (lit "post")) -> isna c = false -> In c posts)
  /\ length posts <= length (rows df)
  /\ (posts = [] ->
      tab1 textblob_polarity read_csv to_csv concat_realigned tm inp w
      = (Ok tt, mkWorld (history_file w) (trace w ++ [heading]))).
Proof.
  intros Hopt Hup Hread Hcol heading posts.
  assert (C : choose_input read_csv inp w
              = (Ok posts, mkWorld (history_file w) (trace w ++ [heading]))).
  { unfold choose_input, bind, emit, lift, ret. rewrite Hopt, Hup. simpl.
    rewrite Hread, Hcol. reflexivity. }
  split; [exact C|]. split; [|split; [|split]].
  - apply Forall_forall. intros c Hc. unfold posts, dropna in Hc.
    apply filter_In in Hc as [_ Hc]. now apply negb_true_iff in Hc.
  - intros c Hc Hn. unfold posts, dropna. apply filter_In. split; [exact Hc|].
    now rewrite Hn.
  - unfold posts, dropna, column.
    rewrite <- (length_map (fun r => nth (position (lit "post") (columns df)) r nan)
                  (rows df)).
    apply filter_length_le.
  - intro E. unfold tab1, bind. rewrite C, E. reflexivity.
Qed.

(** X9.  From the text area every post is a single line: no post holds a
    newline, and a text that is not blank gives one post more than its
    trimmed form has newlines. *)
Theorem text_posts_are_lines (inp : inputs) (w : world) :
  input_option inp = EnterText ->
  analyze_clicked inp = true ->
  strip (user_input inp) <> [] ->
  exists lines,
    fst (choose_input read_csv inp w) = Ok (map CStr lines)
    /\ Forall (fun l => ~ In newline l) lines
    /\ length lines = S (count_occ N.eq_dec (strip (user_input inp)) newline).
Proof.
  intros Hopt Hclick Hne. exists (split newline (strip (user_input inp))).
  destruct (split_lines newline (strip (user_input inp))) as [F L].
  split; [|split; assumption].
  unfold choose_input, bind, emit, ret. rewrite Hopt, Hclick.
  destruct (strip (user_input inp)); [contradiction | reflexivity].
Qed.

(** X11.  Without a history file, or with one that holds no row, the
    History tab shows the note that there is no history yet and offers no
    download; the file is left as it is. *)
Theorem history_tab_without_rows (w : world) :
  (history_file w = None
   \/ exists content h,
        history_file w = Some content /\ read_csv content = Ok h /\ rows h = []) ->
  tab2 read_csv to_csv w
  = (Ok tt,
     mkWorld (history_file w)
       (trace w ++
        [Subheader (lit "📜 Full Analysis History");
         Info (lit "ℹ️ No history found yet. Run an analysis to start building history.")])).
Proof.
  intro H. unfold tab2, bind, emit. rewrite load_history_run. cbn [history_file].
  destruct H as [->|(content & h & -> & -> & Hr)].
  - simpl. now rewrite <- app_assoc.
  - assert (E : empty h = true).
    { unfold empty. rewrite Hr. now destruct (columns h). }
    rewrite E. simpl. now rewrite <- app_assoc.
Qed.

End Facts.

(** ** The theorems at work on the stand-ins *)

Lemma sentiment_label_thresholds_witness :
  keys sentiment_counts0 = keys sentiment_counts0
  /\ rmap fst (sentiment_branch Sample.f0_6 sentiment_counts0) = Ok (lit "Positive")
  /\ rmap fst (sentiment_branch (neg f0_5) sentiment_counts0) = Ok (lit "Negative")
  /\ rmap fst (sentiment_branch Sample.f0_0 sentiment_counts0) = Ok (lit "Neutral").
Proof.
  split; [reflexivity|]. split; [|split].
  - exact (proj1 (sentiment_label_thresholds Sample.f0_6 sentiment_counts0 eq_refl)
             eq_refl).
  - exact (proj1 (proj2 (sentiment_label_thresholds (neg f0_5) sentiment_counts0
                           eq_refl)) eq_refl).
  - exact (proj1 (proj2 (proj2 (sentiment_label_thresholds Sample.f0_0
                                   sentiment_counts0 eq_refl))) eq_refl eq_refl).
Defined.

Lemma toxicity_label_threshold_witness :
  keys toxic_counts0 = keys toxic_counts0
  /\ rmap fst (toxicity_branch Sample.f0_9 toxic_counts0) = Ok (lit "⚠️ Toxic (0.90)")
  /\ rmap fst (toxicity_branch f0_5 toxic_counts0) = Ok (lit "✅ Safe (0.50)").
Proof.
  split; [reflexivity|]. split.
  - exact (proj1 (toxicity_label_threshold Sample.f0_9 toxic_counts0 eq_refl)
             eq_refl).
  - exact (proj1 (proj2 (toxicity_label_threshold f0_5 toxic_counts0 eq_refl))
             eq_refl).
Defined.

Lemma save_history_appends_witness :
  let df_all := mkDF history_columns (Sample.old_row :: Sample.new_rows) in
  save_history Sample.read_csv Sample.to_csv Sample.concat_realigned
    (mkDF history_columns Sample.new_rows) Sample.w1
  = (Ok df_all, mkWorld (Some (Sample.to_csv df_all)) [WriteCsv df_all])
  /\ length (rows df_all) = 3.
Proof.
  exact (save_history_appends Sample.read_csv Sample.to_csv Sample.concat_realigned
           Sample.w1 (mkDF history_columns [Sample.old_row])
           (mkDF history_columns Sample.new_rows) eq_refl eq_refl eq_refl).
Defined.

Lemma missing_post_column_stops_witness :
  tab1 Sample.polarity Sample.read_csv Sample.to_csv Sample.concat_realigned
    Sample.toxic_model Sample.upload_without_post Sample.w1
  = (Ok tt,
     mkWorld (history_file Sample.w1)
       [Subheader (lit "📥 Choose Input Method");
        Error (lit "❌ CSV must contain a column named 'post'")]).
Proof.
  exact (proj1 (missing_post_column_stops Sample.polarity (Ok Sample.toxic_model)
                  Sample.read_csv Sample.to_csv Sample.concat_realigned
                  Sample.toxic_model Sample.upload_without_post Sample.w1
                  [Byte.x74; Byte.x0a] (mkDF [lit "text"] [[CStr Sample.love]])
                  eq_refl eq_refl eq_refl eq_refl)).
Defined.

Lemma classifier_failure_is_fatal_witness :
  In (CStr Sample.hate) Sample.three_posts
  /\ exists e t,
       run_analysis Sample.polarity Sample.read_csv Sample.to_csv
         Sample.concat_realigned Sample.unlabelled_model Sample.three_posts Sample.w1
       = (Raise e, mkWorld (history_file Sample.w1) (trace Sample.w1 ++ t))
       /\ existsb written t = false.
Proof.
  assert (Hin : In (CStr Sample.hate) Sample.three_posts) by (right; left; reflexivity).
  split; [exact Hin|].
  refine (proj1 (classifier_failure_is_fatal Sample.polarity
                   (Ok Sample.unlabelled_model) Sample.read_csv Sample.to_csv
                   Sample.concat_realigned Sample.unlabelled_model
                   Sample.three_posts (CStr Sample.hate) Hin _) Sample.w1).
  right. exists [[mkPrediction (lit "insult") Sample.f0_0]],
                [mkPrediction (lit "insult") Sample.f0_0].
  repeat split.
Defined.

Lemma counts_match_posts_witness :
  exists p n u t s,
    [(lit "Positive", 1%Z); (lit "Negative", 1%Z); (lit "Neutral", 1%Z)]
    = [(lit "Positive", p); (lit "Negative", n); (lit "Neutral", u)] /\
    [(lit "Toxic", 1%Z); (lit "Safe", 2%Z)] = [(lit "Toxic", t); (lit "Safe", s)] /\
    (p + n + u = 3)%Z /\ (t + s = 3)%Z /\
    length (fst (fst (match fst (for_posts Sample.polarity Sample.toxic_model
                                   Sample.three_posts
                                   ([], sentiment_counts0, toxic_counts0) Sample.w0)
                      with Ok st => st | Raise _ => ([], [], []) end))) = 3.
Proof.
  exact (proj2 (counts_match_posts Sample.polarity Sample.toxic_model)
           Sample.three_posts Sample.w0 _ _ _ _ eq_refl).
Defined.

Lemma batch_keeps_input_order_witness :
  exists results tc w',
    for_posts Sample.polarity Sample.toxic_model Sample.three_posts
      ([], sentiment_counts0, toxic_counts0) Sample.w0
    = (Ok (results,
           [(lit "Positive", 1%Z); (lit "Negative", 1%Z); (lit "Neutral", 1%Z)],
           tc), w')
    /\ map (fun r => snd (fst r)) results
       = [lit "Positive"; lit "Negative"; lit "Neutral"]
    /\ map (fun r => fst (fst r)) results = Sample.three_posts.
Proof.
  refine (proj2 (proj2 (batch_keeps_input_order Sample.polarity Sample.toxic_model
                          Sample.three_posts Sample.w0)) eq_refl eq_refl eq_refl _).
  intros post [<-|[<-|[<-|[]]]]; eexists; reflexivity.
Defined.

Lemma text_entry_trims_whole_input_witness :
  tab1 Sample.polarity Sample.read_csv Sample.to_csv Sample.concat_realigned
    Sample.toxic_model Sample.blank_entry Sample.w1
  = (Ok tt,
     mkWorld (history_file Sample.w1)
       [Subheader (lit "📥 Choose Input Method");
        Warning (lit "⚠️ Please enter some posts to analyze.")])
  /\ strip (hd [] (split newline (strip (user_input Sample.gap_entry)))) <> []
  /\ strip (last (split newline (strip (user_input Sample.gap_entry))) []) <> [].
Proof.
  split.
  - exact (text_entry_trims_whole_input Sample.polarity Sample.read_csv Sample.to_csv
             Sample.concat_realigned Sample.toxic_model Sample.blank_entry Sample.w1
             eq_refl eq_refl).
  - exact (proj2 (proj2 (text_entry_trims_whole_input Sample.polarity Sample.read_csv
                           Sample.to_csv Sample.concat_realigned Sample.toxic_model
                           Sample.gap_entry Sample.w0 eq_refl eq_refl))).
Defined.

(** C4.  Blank lines of the text area are to be left out before anything
    is classified; the upload path does leave out its empty cells
    ([dropna], line 109) and the text path refuses a blank text (line 97),
    but it never looks at the lines one by one.  On the text ["a\n\nb"]
    the empty middle line is a post: both classifiers are called on it and
    its row is written to the history file. *)
Lemma blank_line_is_analysed :
  let w' := snd (Sample.script Sample.gap_entry Sample.w0) in
  fst (choose_input Sample.read_csv Sample.gap_entry Sample.w0)
  = Ok [CStr (lit "a"); CStr []; CStr (lit "b")]
  /\ strip [] = []
  /\ nth_error (trace w') 3 = Some (SentimentCall (CStr []))
  /\ nth_error (trace w') 4 = Some (ToxicCall (CStr []))
  /\ match nth_error (trace w') 7 with
     | Some (WriteCsv df) =>
       nth_error (rows df) 1
       = Some [CStr []; CStr (lit "Neutral"); CStr (lit "✅ Safe (0.00)")]
     | _ => False
     end.
Proof. vm_compute. repeat split. Qed.

(** ** The further properties at work on the stand-ins *)

Lemma tab1_all_or_nothing_witness :
  let out := tab1 Sample.polarity Sample.read_csv Sample.to_csv
               Sample.concat_realigned Sample.unlabelled_model
               Sample2.hate_entry Sample.w1 in
  fst out = Raise IndexError
  /\ history_file (snd out) = history_file Sample.w1
  /\ exists t, trace (snd out) = trace Sample.w1 ++ t /\ existsb written t = false.
Proof.
  split; [reflexivity|].
  exact (tab1_all_or_nothing Sample.polarity Sample.read_csv Sample.to_csv
           Sample.concat_realigned Sample.unlabelled_model Sample2.hate_entry
           Sample.w1 _ IndexError eq_refl).
Defined.

Lemma run_analysis_success_witness :
  exists results sc tc,
    Forall2 (analysed Sample.polarity Sample.toxic_model) Sample.three_posts results /\
    total sc = 3%Z /\ total tc = 3%Z /\
    let results_df := results_frame results in
    let df_all := mkDF history_columns ([Sample.old_row] ++ rows results_df) in
    run_analysis Sample.polarity Sample.read_csv Sample.to_csv
      Sample.concat_realigned Sample.toxic_model Sample.three_posts Sample.w1
    = (Ok tt,
       mkWorld (Some (Sample.to_csv df_all))
         (trace Sample.w1 ++ flat_map calls Sample.three_posts ++
          [WriteCsv df_all;
           Subheader (lit "📊 Analysis Results");
           ShowDataframe results_df;
           Subheader (lit "📈 Sentiment Distribution");
           PlotlyChart (Pie [lit "Positive"; lit "Negative"; lit "Neutral"]
                            (values sc) (lit "Sentiment Breakdown"));
           Subheader (lit "⚠️ Toxic vs Safe Posts");
           PlotlyChart (Bar [lit "Toxic"; lit "Safe"] (values tc))])).
Proof.
  refine (run_analysis_success Sample.polarity Sample.read_csv Sample.to_csv
            Sample.concat_realigned Sample.toxic_model Sample.three_posts Sample.w1
            (mkDF history_columns [Sample.old_row]) _ _ eq_refl eq_refl).
  - discriminate.
  - intros post [<-|[<-|[<-|[]]]]; split; eexists; reflexivity.
Defined.

Lemma unreadable_history_loses_batch_witness :
  run_analysis Sample.polarity Sample.read_csv Sample.to_csv
    Sample.concat_realigned Sample.toxic_model Sample.three_posts Sample2.w_unreadable
  = (Raise (LibraryError "EmptyDataError"),
     mkWorld (Some []) (flat_map calls Sample.three_posts)).
Proof.
  refine (unreadable_history_loses_batch Sample.polarity Sample.read_csv Sample.to_csv
            Sample.concat_realigned Sample.toxic_model Sample.three_posts
            Sample2.w_unreadable [] (LibraryError "EmptyDataError") _ _
            eq_refl eq_refl).
  - discriminate.
  - intros post [<-|[<-|[<-|[]]]]; split; eexists; reflexivity.
Defined.

Lemma counts_agree_with_rows_witness :
  exists results sc tc w',
    for_posts Sample.polarity Sample.toxic_model Sample.three_posts
      ([], sentiment_counts0, toxic_counts0) Sample.w0 = (Ok (results, sc, tc), w')
    /\ sc = [(lit "Positive", labelled (lit "Positive") results);
             (lit "Negative", labelled (lit "Negative") results);
             (lit "Neutral", labelled (lit "Neutral") results)]
    /\ tc = [(lit "Toxic", flagged (lit "⚠️ Toxic (") results);
             (lit "Safe", flagged (lit "✅ Safe (") results)].
Proof.
  eexists _, _, _, _. split; [reflexivity|].
  exact (counts_agree_with_rows Sample.polarity Sample.toxic_model
           Sample.three_posts Sample.w0 _ _ _ _ eq_refl).
Defined.

Lemma printed_score_agrees_with_label_witness :
  is_float64 Sample2.above_half
  /\ gt Sample2.above_half f0_5 = true
  /\ exists h, (50 <= h)%Z /\
       rmap fst (toxicity_branch Sample2.above_half toxic_counts0)
       = Ok (lit "⚠️ Toxic (" ++ fixed2 h ++ lit ")").
Proof.
  split; [reflexivity|]. split; [reflexivity|].
  exact (proj1 (printed_score_agrees_with_label Sample2.above_half false
                  4503599627370497 (-53) eq_refl eq_refl) eq_refl).
Defined.

Lemma save_history_accumulates_witness :
  exists w1,
    save_history Sample2.read_csv Sample.to_csv Sample.concat_realigned
      Sample2.first_batch Sample.w0
    = (Ok Sample2.first_batch, w1)
    /\ save_history Sample2.read_csv Sample.to_csv Sample.concat_realigned
         Sample2.second_batch w1
       = (Ok (mkDF history_columns Sample.new_rows),
          mkWorld (Some (Sample.to_csv (mkDF history_columns Sample.new_rows)))
            [WriteCsv Sample2.first_batch; WriteCsv (mkDF history_columns Sample.new_rows)]).
Proof.
  exact (save_history_accumulates Sample2.read_csv Sample.to_csv
           Sample.concat_realigned Sample.w0 (mkDF history_columns [])
           Sample2.first_batch Sample2.second_batch
           eq_refl eq_refl eq_refl eq_refl eq_refl).
Defined.

Lemma upload_posts_skip_missing_witness :
  tab1 Sample.polarity Sample2.read_null_posts Sample.to_csv Sample.concat_realigned
    Sample.toxic_model Sample2.upload_entry Sample.w1
  = (Ok tt,
     mkWorld (history_file Sample.w1) [Subheader (lit "📥 Choose Input Method")]).
Proof.
  exact (proj2 (proj2 (proj2 (proj2
           (upload_posts_skip_missing Sample.polarity Sample2.read_null_posts
              Sample.to_csv Sample.concat_realigned Sample.toxic_model
              Sample2.upload_entry Sample.w1 [Byte.x70] Sample2.null_posts
              eq_refl eq_refl eq_refl eq_refl)))) eq_refl).
Defined.

Lemma text_posts_are_lines_witness :
  exists lines,
    fst (choose_input Sample.read_csv Sample.gap_entry Sample.w0) = Ok (map CStr lines)
    /\ Forall (fun l => ~ In newline l) lines
    /\ length lines = 3.
Proof.
  refine (text_posts_are_lines Sample.read_csv Sample.gap_entry Sample.w0
            eq_refl eq_refl _).
  discriminate.
Defined.

Lemma history_tab_without_rows_witness :
  tab2 Sample.read_csv Sample.to_csv Sample.w0
  = (Ok tt,
     mkWorld None
       [Subheader (lit "📜 Full Analysis History");
        Info (lit "ℹ️ No history found yet. Run an analysis to start building history.")]).
Proof.
  exact (history_tab_without_rows Sample.read_csv Sample.to_csv Sample.w0
           (or_introl eq_refl)).
Defined.
